(** * firefly-cli: the ethsigner provider and the docker command runner

    A shallow embedding of [internal/blockchain/ethereum/ethsigner/ethsigner.go]
    and of the [docker] package it drives ([CreateVolume], [CopyFileToVolume],
    [RunDockerCommandRetry], [RunDockerComposeCommand], [runCommand],
    [pipeCommand], [readPipe]).

    Conventions of the embedding:
    - a Go [error] is its message, [nil] is [None];
    - a Go [int] is a [Z]; no arithmetic of the modelled code can overflow
      (the only increment is [attempt++] below [retries]);
    - everything a function does to the outside world (files, processes) is
      recorded, in order, in a trace of operations; what the outside world
      answers is given by an environment that sees the trace so far;
    - a Go panic unwinds through every caller: it is an outcome of its own,
      next to a normal return and to a call that never returns;
    - writes to the terminal ([fmt.Print], [fmt.Println]) are not recorded: no
      function of the program reads them back;
    - pointers ([*types.Stack], [*types.Member], [*ethereum.Account]) are taken
      to be non-nil. *)

From Stdlib Require Import String Ascii List ZArith Lia Bool DecimalString.
From Equations Require Import Equations.
Import ListNotations.
Open Scope Z_scope.
Open Scope string_scope.

Set Implicit Arguments.

(** ** Strings *)

Module Str.

(** [strings.Join] *)
Fixpoint Join (elems : list string) (sep : string) : string :=
  match elems with
  | [] => ""
  | [e] => e
  | e :: rest => e ++ sep ++ Join rest sep
  end.

(** The verb [%d] of [fmt] on an [int]. *)
Definition itoa (z : Z) : string := NilZero.string_of_int (Z.to_int z).

(** [sub] occurs in [s]. *)
Definition contains (s sub : string) : Prop :=
  exists pre post, s = pre ++ sub ++ post.

Fixpoint containsb (s sub : string) : bool :=
  prefix sub s ||
  match s with
  | EmptyString => false
  | String _ rest => containsb rest sub
  end.

(** The byte [c] occurs in [s] ([strings.IndexByte(s, c) >= 0]). *)
Fixpoint hasByte (c : ascii) (s : string) : bool :=
  match s with
  | EmptyString => false
  | String x rest => Ascii.eqb x c || hasByte c rest
  end.

(** What a [strings.Builder] holds after [WriteString] of each element. *)
Fixpoint cat (l : list string) : string :=
  match l with
  | [] => ""
  | x :: rest => x ++ cat rest
  end.

End Str.

(** ** Outcomes and the trace monad *)

Definition error := string.

(** How a call ends: it returns, it panics, or it never returns (the
    goroutine stays parked on a [select] no case of which becomes ready). *)
Inductive Outcome (A : Type) : Type :=
| Ret (a : A)
| Panic (msg : string)
| Blocked.
Arguments Ret {A} a.
Arguments Panic {A} msg.
Arguments Blocked {A}.

(** [exec.Cmd]: the fields the program sets and reads. *)
Record Cmd := mkCmd { Path : string; Args : list string; Dir : string }.

(** [exec.Command(name, arg...)] *)
Definition exec_Command (name : string) (arg : list string) : Cmd :=
  {| Path := name; Args := name :: arg; Dir := "" |}.

(** The built-in [append(s, x)] *)
Definition append {A} (s : list A) (x : A) : list A := (s ++ [x])%list.

Definition withDir (c : Cmd) (d : string) : Cmd :=
  {| Path := Path c; Args := Args c; Dir := d |}.

(** Operations on the outside world, as the program issues them. The four
    provider steps whose bodies lie outside the two source files
    ([GenerateSignerConfig(..).WriteConfig], [writeAccountToDisk],
    [writeTomlKeyFile], [importAccountToEthsigner]) are operations too: the
    environment decides whether they fail. *)
Inductive Op : Type :=
| OpMkdirAll (path : string) (perm : Z)
| OpWriteFile (path : string) (data : string) (perm : Z)
| OpWriteSignerConfig (chainID : Z) (rpcURL : string) (path : string)
| OpWriteAccountToDisk (dir address privateKey : string)
| OpWriteTomlKeyFile (dir address : string)
| OpImportAccountToEthsigner (address : string)
| OpRun (cmd : Cmd).

Definition Trace := list Op.

(** One of the two output streams of a process: what the process wrote to
    it, and how reading it ends ([None]: end of file, [Some e]: a read error
    after the data). *)
Record Pipe := mkPipe { written : string; readErr : option error }.

Inductive Stream := Stdout | Stderr.

(** One iteration of the [select] in [runCommand] takes one ready case. *)
Inductive Pick :=
| RecvLine (from : Stream)
| RecvErr (from : Stream).

(** What running a command does: whether the pipes could be opened, the two
    streams, the order in which the [select] takes its cases, the exit
    code ([ProcessState.ExitCode()]). *)
Record Exec := mkExec {
  stdoutPipeErr : option error;
  stderrPipeErr : option error;
  stdoutPipe : Pipe;
  stderrPipe : Pipe;
  picks : list Pick;
  exitCode : Z }.

Record Env := mkEnv {
  hostResult : Trace -> Op -> option error;
  process : Trace -> Cmd -> Exec }.

Definition M (A : Type) : Type := Trace -> Trace * Outcome A.

Definition ret {A} (a : A) : M A := fun h => (h, Ret a).

Definition bind {A B} (m : M A) (k : A -> M B) : M B :=
  fun h =>
    match m h with
    | (h', Ret a) => k a h'
    | (h', Panic msg) => (h', Panic msg)
    | (h', Blocked) => (h', Blocked)
    end.

Declare Scope go_scope.
Delimit Scope go_scope with go.
Notation "x <- m ;; k" := (bind m (fun x => k))
  (at level 100, m at next level, right associativity) : go_scope.
(** [if err := m; err != nil { return err }; k] *)
Notation "'check' m ;; k" :=
  (bind m (fun err => match err with
                      | Some e => ret (Some e)
                      | None => k
                      end))
  (at level 100, m at next level, right associativity) : go_scope.
Open Scope go_scope.

(** An operation of the host: record it, return what the environment says. *)
Definition perform (env : Env) (o : Op) : M (option error) :=
  fun h => ((h ++ [o])%list, Ret (hostResult env h o)).

(** Starting a process: record it, obtain its behaviour. *)
Definition start (env : Env) (c : Cmd) : M Exec :=
  fun h => ((h ++ [OpRun c])%list, Ret (process env h c)).

(** ** The parts of the Go standard library the program calls

    [path/filepath.Join], [path.Join], [path.Base] and [net/url.Parse] are
    not code of the repository: they are parameters of the development. A
    parsed URL is seen through the accessors [getCommand] uses ([Scheme],
    [Hostname()], [Port()], [Path]). *)

Module url.
Record URL := mkURL {
  Scheme : string;
  Hostname : string;
  Port : string;
  Path : string }.
End url.

Record GoStd := mkGoStd {
  filepath_Join : list string -> string;
  path_Join : list string -> string;
  path_Base : string -> string;
  url_Parse : string -> url.URL + error }.

(** ** Package docker *)

Module docker.

(** A value held in an [interface{}]: the dynamic types the program tells
    apart. *)
Inductive Any :=
| AnyNil
| AnyBool (b : bool)
| AnyDockerComposeVersion (v : Z)
| AnyOther.

Inductive CtxKey := CtxIsLogCmdKey | CtxComposeVersionKey.

(** [context.Context], through the two ways the package reads it:
    [log.VerbosityFromContext(ctx)] and [ctx.Value(key)]. *)
Record Context := mkContext {
  VerbosityFromContext : bool;
  Value : CtxKey -> Any }.

(** [const ( None DockerComposeVersion = iota; ComposeV1; ComposeV2 )] *)
Definition None_ : Z := 0.
Definition ComposeV1 : Z := 1.
Definition ComposeV2 : Z := 2.

Definition newline : ascii := "010"%char.

(** The lines the successive [buf.ReadString('\n')] of [readPipe] return
    without an error: [cur] is the part of the current line read so far.
    When the data ends inside a line, [ReadString] returns that rest together
    with the error, and [readPipe] drops it. *)
Fixpoint readLines (cur data : string) : list string :=
  match data with
  | EmptyString => []
  | String c rest =>
      if Ascii.eqb c newline
      then (cur ++ String c "") :: readLines "" rest
      else readLines (cur ++ String c "") rest
  end.

(** A running [readPipe]: the lines it has still to send on its output
    channel, and what it does after the last one: close the channel
    ([None]), or first send the read error on [errChan] ([Some e]). *)
Record Drainer := mkDrainer { toSend : list string; failure : option error }.

Definition readPipe (p : Pipe) : Drainer :=
  {| toSend := readLines "" (written p); failure := readErr p |}.

Definition closed : Drainer := {| toSend := []; failure := None |}.

(** The senders [runCommand] selects over. *)
Inductive Chans :=
| PipeFailed (e : error)
| Draining (out err : Drainer).

Definition pipeCommand (x : Exec) : Chans :=
  match stdoutPipeErr x with
  | Some e => PipeFailed e
  | None =>
      match stderrPipeErr x with
      | Some e => PipeFailed e
      | None => Draining (readPipe (stdoutPipe x)) (readPipe (stderrPipe x))
      end
  end.

(** [s, ok := <-outputChan], when that case is ready: a line is being sent,
    or the channel is closed. *)
Definition recvLine (d : Drainer) : option (string * bool * Drainer) :=
  match toSend d, failure d with
  | l :: rest, f => Some (l, true, {| toSend := rest; failure := f |})
  | [], None => Some ("", false, d)
  | [], Some _ => None
  end.

(** [err := <-errChan], from this drainer, when it is sending one. *)
Definition recvErr (d : Drainer) : option error :=
  match toSend d, failure d with
  | [], Some e => Some e
  | _, _ => None
  end.

Inductive Recv :=
| FromStdout (s : string) (ok : bool)
| FromStderr (s : string) (ok : bool)
| FromErrChan (e : error).

(** One [select]: the case the schedule names, if it is ready. *)
Definition select (c : Chans) (p : Pick) : option (Recv * Chans) :=
  match c, p with
  | PipeFailed e, RecvErr _ => Some (FromErrChan e, c)
  | PipeFailed _, RecvLine _ => None
  | Draining o e, RecvLine Stdout =>
      match recvLine o with
      | Some (s, ok, o') => Some (FromStdout s ok, Draining o' e)
      | None => None
      end
  | Draining o e, RecvLine Stderr =>
      match recvLine e with
      | Some (s, ok, e') => Some (FromStderr s ok, Draining o e')
      | None => None
      end
  | Draining o e, RecvErr Stdout =>
      match recvErr o with
      | Some x => Some (FromErrChan x, Draining closed e)
      | None => None
      end
  | Draining o e, RecvErr Stderr =>
      match recvErr e with
      | Some x => Some (FromErrChan x, Draining o closed)
      | None => None
      end
  end.

(** How the loop labelled [outputCapture] is left. A schedule that ends, or
    that names a case which is not ready, before the loop is left describes
    a run in which [runCommand] does not return. *)
Inductive Captured :=
| Broke (outputBuff : string)
| Failed (e : error)
| Parked.

Fixpoint outputCapture (isLogCmd verbose : bool) (sched : list Pick)
    (c : Chans) (outputBuff : string) : Captured :=
  match sched with
  | [] => Parked
  | p :: sched' =>
      match select c p with
      | None => Parked
      | Some (FromStdout s ok, c') =>
          if isLogCmd || verbose then
            if negb ok then Broke outputBuff
            else outputCapture isLogCmd verbose sched' c' (outputBuff ++ s)
          else outputCapture isLogCmd verbose sched' c' (outputBuff ++ s)
      | Some (FromStderr s ok, c') =>
          if negb ok then Broke outputBuff
          else outputCapture isLogCmd verbose sched' c' (outputBuff ++ s)
      | Some (FromErrChan e, _) => Failed e
      end
  end.

(** [isLogCmd, _ := ctx.Value(CtxIsLogCmdKey{}).(bool)] *)
Definition isLogCmd (ctx : Context) : bool :=
  match Value ctx CtxIsLogCmdKey with AnyBool b => b | _ => false end.

(** [fmt.Errorf("%s [%d] %s", strings.Join(cmd.Args, " "), statusCode,
    outputBuff.String())] *)
Definition exitError (cmd : Cmd) (statusCode : Z) (outputBuff : string) : error :=
  Str.Join (Args cmd) " " ++ " [" ++ Str.itoa statusCode ++ "] " ++ outputBuff.

Section WithEnv.

Variable std : GoStd.
Variable env : Env.

Definition runCommand (ctx : Context) (cmd : Cmd) : M (string * option error) :=
  let verbose := VerbosityFromContext ctx in
  let isLogCmd := isLogCmd ctx in
  x <- start env cmd ;;
  match outputCapture isLogCmd verbose (picks x) (pipeCommand x) "" with
  | Parked => fun h => (h, Blocked)
  | Failed e => ret ("", Some e)
  | Broke outputBuff =>
      let statusCode := exitCode x in
      if negb (statusCode =? 0)%Z then
        ret ("", Some (exitError cmd statusCode outputBuff))
      else ret (outputBuff, None)
  end.

Definition RunDockerCommand (ctx : Context) (workingDir : string)
    (command : list string) : M (option error) :=
  let dockerCmd := withDir (exec_Command "docker" command) workingDir in
  r <- runCommand ctx dockerCmd ;;
  ret (snd r).

Definition RunDockerCommandBuffered (ctx : Context) (workingDir : string)
    (command : list string) : M (string * option error) :=
  let dockerCmd := withDir (exec_Command "docker" command) workingDir in
  runCommand ctx dockerCmd.

(** The [for] loop of [RunDockerCommandRetry], from the value [attempt] has
    at the head of an iteration. At most [retries - attempt] iterations
    follow this one. *)
Equations? retryLoop (ctx : Context) (workingDir : string) (retries : Z)
    (command : list string) (attempt : Z) (h : Trace)
    : Trace * Outcome (option error)
    by wf (Z.to_nat (retries - attempt)) lt :=
  retryLoop ctx workingDir retries command attempt h
    with RunDockerCommand ctx workingDir command h := {
    | (h', Ret (Some err)) with Z_lt_dec attempt retries := {
        | left _ => retryLoop ctx workingDir retries command (attempt + 1) h'
        | right _ => (h', Ret (Some err)) };
    | (h', Ret None) => (h', Ret None);
    | (h', Panic msg) => (h', Panic msg);
    | (h', Blocked) => (h', Blocked) }.
Proof. lia. Qed.

Definition RunDockerCommandRetry (ctx : Context) (workingDir : string)
    (retries : Z) (command : list string) : M (option error) :=
  retryLoop ctx workingDir retries command 0.

Definition RunDockerComposeCommand (ctx : Context) (workingDir : string)
    (command : list string) : M (option error) :=
  let undetected : M (option error) :=
    ret (Some "No version for docker-compose has been detected.") in
  match Value ctx CtxComposeVersionKey with
  | AnyDockerComposeVersion v =>
      if (v =? ComposeV1)%Z then
        let dockerCmd :=
          withDir (exec_Command "docker-compose" command) workingDir in
        r <- runCommand ctx dockerCmd ;;
        ret (snd r)
      else if (v =? ComposeV2)%Z then
        let dockerCmd :=
          withDir (exec_Command "docker" ("compose" :: command)) workingDir in
        r <- runCommand ctx dockerCmd ;;
        ret (snd r)
      else undetected
  | _ => undetected
  end.

Definition CreateVolume (ctx : Context) (volumeName : string)
    : M (option error) :=
  RunDockerCommand ctx "." ["volume"; "create"; volumeName].

Definition CopyFileToVolume (ctx : Context)
    (volumeName sourcePath destPath : string) : M (option error) :=
  let fileName := path_Base std sourcePath in
  RunDockerCommand ctx "."
    ["run"; "--rm";
     "-v"; sourcePath ++ ":/source/" ++ fileName;
     "-v"; volumeName ++ ":/dest";
     "alpine"; "cp"; "-R";
     path_Join std ["/"; "source"; fileName];
     path_Join std ["/"; "dest"; destPath]].

Definition MkdirInVolume (ctx : Context) (volumeName directory : string)
    : M (option error) :=
  RunDockerCommand ctx "."
    ["run"; "--rm"; "-v"; volumeName ++ ":/dest"; "alpine"; "mkdir"; "-p";
     path_Join std ["/"; "dest"; directory]].

Definition RemoveVolume (ctx : Context) (volumeName : string)
    : M (option error) :=
  RunDockerCommand ctx "." ["volume"; "remove"; volumeName].

Definition CopyFromContainer (ctx : Context)
    (containerName sourcePath destPath : string) : M (option error) :=
  check RunDockerCommand ctx "." ["cp"; containerName ++ ":" ++ sourcePath; destPath] ;;
  ret None.

End WithEnv.

(** [docker.ServiceDefinition] and the types it is made of, with the fields
    the provider fills in. The type of the logging options, like the value
    [docker.StandardLogOptions], is declared outside the two source files:
    it is a parameter. *)
Record HealthCheck := mkHealthCheck {
  Test : list string;
  Interval : string;
  Retries : Z }.

Record Service (LoggingConfig : Type) := mkService {
  Image : string;
  ContainerName : string;
  User : string;
  Command : string;
  Volumes : list string;
  Logging : LoggingConfig;
  HealthCheck_ : HealthCheck;
  Ports : list string }.

Record ServiceDefinition (LoggingConfig : Type) := mkServiceDefinition {
  ServiceName : string;
  Service_ : Service LoggingConfig;
  VolumeNames : list string }.

(** A value that [json.Unmarshal] stores in an [interface{}], by the dynamic
    types [GetImageLabel] tells apart: no value (JSON [null]), a string, a
    [map[string]interface{}], or a value of another type ([bool], [float64],
    [[]interface{}]), named as the runtime prints it. A map is seen through
    its lookups; the nil map finds no key. *)
#[warnings="-register-all"] Inductive Decoded :=
| DecodedNil
| DecodedString (s : string)
| DecodedMap (m : string -> option Decoded)
| DecodedOther (typeName : string).

Definition JSONMap := string -> option Decoded.

Definition nilMap : JSONMap := fun _ => None.

(** The dynamic type, as a failed type assertion reports it. *)
Definition typeName (v : Decoded) : string :=
  match v with
  | DecodedNil => "nil"
  | DecodedString _ => "string"
  | DecodedMap _ => "map[string]interface {}"
  | DecodedOther t => t
  end.

(** [v.(map[string]interface{})] *)
Definition assertMap (v : Decoded) : Outcome JSONMap :=
  match v with
  | DecodedMap m => Ret m
  | _ =>
      Panic ("interface conversion: interface {} is " ++ typeName v
             ++ ", not map[string]interface {}")
  end.

(** [v.(string)] *)
Definition assertString (v : Decoded) : Outcome string :=
  match v with
  | DecodedString s => Ret s
  | _ =>
      Panic ("interface conversion: interface {} is " ++ typeName v
             ++ ", not string")
  end.

Section Images.

(** [crane.Config], [crane.Digest] and [json.Unmarshal] into a
    [map[string]interface{}] belong to other packages: they are parameters,
    each giving the values its call returns (for [json.Unmarshal], the map it
    leaves in [jsonMap] and its error). *)
Variable crane_Config : string -> string * option error.
Variable crane_Digest : string -> string * option error.
Variable json_Unmarshal : string -> JSONMap * option error.

Definition GetImageConfig (image : string) : JSONMap * option error :=
  let '(b, err) := crane_Config image in
  match err with
  | Some e => (nilMap, Some e)
  | None =>
      let '(jsonMap, err) := json_Unmarshal b in
      match err with
      | Some e => (nilMap, Some e)
      | None => (jsonMap, None)
      end
  end.

Definition GetImageLabel (image label : string)
    : Outcome (string * option error) :=
  let '(config, err) := GetImageConfig image in
  match err with
  | Some e => Ret ("", Some e)
  | None =>
      match config "config" with
      | None => Ret ("", None)
      | Some c =>
          match assertMap c with
          | Panic msg => Panic msg
          | Blocked => Blocked
          | Ret cm =>
              match cm "Labels" with
              | None => Ret ("", None)
              | Some labels =>
                  match assertMap labels with
                  | Panic msg => Panic msg
                  | Blocked => Blocked
                  | Ret lm =>
                      match lm label with
                      | None => Ret ("", None)
                      | Some val =>
                          match assertString val with
                          | Panic msg => Panic msg
                          | Blocked => Blocked
                          | Ret s => Ret (s, None)
                          end
                      end
                  end
              end
          end
      end
  end.

Definition GetImageDigest (image : string) : string * option error :=
  crane_Digest image.

End Images.

End docker.

(** ** Package ethsigner *)

Module ethereum.
Record Account := mkAccount { Address : string; PrivateKey : string }.
End ethereum.

Module types.

(** The [Account interface{}] field of a member, by dynamic type: no value,
    a [*ethereum.Account], or a value of another type (named as the runtime
    prints it). *)
Inductive AccountValue :=
| NilAccount
| EthereumAccount (a : ethereum.Account)
| OtherAccount (typeName : string).

Record Member := mkMember { Account : AccountValue }.

(** [types.Stack]: the fields the provider reads, and the result of its
    method [ChainID()]. *)
Record Stack := mkStack {
  Name : string;
  Members : list Member;
  InitDir : string;
  RuntimeDir : string;
  StackDir : string;
  ExposedBlockchainPort : Z;
  ChainID : Z }.

Record InitOptions := mkInitOptions { InitOptions_ChainID : Z }.

End types.

Module ethsigner.

Import types.

Definition ethsignerImage := "ghcr.io/hyperledger/firefly-signer:v0.9.1".
Definition gethImage := "ethereum/client-go:release-1.10".

(** [EthSignerProvider], without its logger, which these methods do not use. *)
Record EthSignerProvider := mkProvider {
  Verbose : bool;
  Stack_ : Stack }.

(** Outcomes of code that touches nothing outside. *)
Definition andThen {A B} (o : Outcome A) (k : A -> Outcome B) : Outcome B :=
  match o with
  | Ret a => k a
  | Panic msg => Panic msg
  | Blocked => Blocked
  end.

Definition lift {A} (o : Outcome A) : M A := fun h => (h, o).

(** [v.( *ethereum.Account )], the form of the type assertion that panics. *)
Definition assertAccount (v : AccountValue) : Outcome ethereum.Account :=
  match v with
  | EthereumAccount a => Ret a
  | NilAccount =>
      Panic "interface conversion: interface {} is nil, not *ethereum.Account"
  | OtherAccount typeName =>
      Panic ("interface conversion: interface {} is " ++ typeName
             ++ ", not *ethereum.Account")
  end.

(** [0755] *)
Definition perm0755 : Z := 493.

(** The body of the health-check request,
    [{"jsonrpc":"2.0","method":"net_version","params":[],"id":"1"}]. *)
Definition jsonrpcNetVersion : string :=
  let q := String (ascii_of_nat 34) "" in
  let quoted s := q ++ s ++ q in
  "{" ++ quoted "jsonrpc" ++ ":" ++ quoted "2.0" ++ ","
      ++ quoted "method" ++ ":" ++ quoted "net_version" ++ ","
      ++ quoted "params" ++ ":[],"
      ++ quoted "id" ++ ":" ++ quoted "1" ++ "}".

Section Provider.

Variable std : GoStd.
Variable env : Env.
(** [constants.StacksDir] *)
Variable StacksDir : string.
Variable LoggingConfig : Type.
(** [docker.StandardLogOptions] *)
Variable StandardLogOptions : LoggingConfig.
(** The constant [useJavaSigner]: fixed when the program is compiled, [false]
    in the source (see [useJavaSigner] below). *)
Variable useJavaSigner : bool.

(** The provider hands its [Verbose] flag to the docker package, which reads
    the verbosity from the context of the call. *)
Definition callContext (p : EthSignerProvider) : docker.Context :=
  {| docker.VerbosityFromContext := Verbose p;
     docker.Value := fun _ => docker.AnyNil |}.

Definition writeAccountToDisk (p : EthSignerProvider)
    (directory address privateKey : string) : M (option error) :=
  perform env (OpWriteAccountToDisk directory address privateKey).

Definition writeTomlKeyFile (p : EthSignerProvider)
    (directory address : string) : M (option error) :=
  perform env (OpWriteTomlKeyFile directory address).

Definition importAccountToEthsigner (p : EthSignerProvider)
    (address : string) : M (option error) :=
  perform env (OpImportAccountToEthsigner address).

(** [for _, member := range p.Stack.Members] of [WriteConfig], followed by
    its [return nil]. *)
Fixpoint WriteConfig_members (p : EthSignerProvider) (members : list Member)
    : M (option error) :=
  match members with
  | [] => ret None
  | member :: rest =>
      account <- lift (assertAccount (Account member)) ;;
      check writeAccountToDisk p (InitDir (Stack_ p))
              (ethereum.Address account) (ethereum.PrivateKey account) ;;
      check writeTomlKeyFile p (InitDir (Stack_ p))
              (ethereum.Address account) ;;
      WriteConfig_members p rest
  end.

Definition WriteConfig (p : EthSignerProvider) (options : InitOptions)
    (rpcURL : string) : M (option error) :=
  let initDir := filepath_Join std [StacksDir; Name (Stack_ p); "init"] in
  let blockchainDirectory := filepath_Join std [initDir; "blockchain"] in
  check perform env (OpMkdirAll blockchainDirectory perm0755) ;;
  check perform env
          (OpWriteFile (filepath_Join std [initDir; "blockchain"; "password"])
             "correcthorsebatterystaple" perm0755) ;;
  let signerConfigPath :=
    filepath_Join std [initDir; "config"; "ethsigner.yaml"] in
  err <- perform env
           (OpWriteSignerConfig (InitOptions_ChainID options) rpcURL
              signerConfigPath) ;;
  match err with
  | Some _ => ret None
  | None => WriteConfig_members p (Members (Stack_ p))
  end.

(** [for _, member := range p.Stack.Members] of [FirstTimeSetup]; [None]
    when the loop runs to its end. *)
Fixpoint FirstTimeSetup_members (p : EthSignerProvider)
    (members : list Member) : M (option error) :=
  match members with
  | [] => ret None
  | member :: rest =>
      account <- lift (assertAccount (Account member)) ;;
      check importAccountToEthsigner p (ethereum.Address account) ;;
      FirstTimeSetup_members p rest
  end.

Definition FirstTimeSetup (p : EthSignerProvider) : M (option error) :=
  let ethsignerVolumeName := Name (Stack_ p) ++ "_ethsigner" in
  let blockchainDir := filepath_Join std [RuntimeDir (Stack_ p); "blockchain"] in
  let contractsDir := filepath_Join std [RuntimeDir (Stack_ p); "contracts"] in
  check docker.CreateVolume env (callContext p) ethsignerVolumeName ;;
  check perform env (OpMkdirAll contractsDir perm0755) ;;
  let signerConfigPath :=
    filepath_Join std
      [StackDir (Stack_ p); "runtime"; "config"; "ethsigner.yaml"] in
  let signerConfigVolumeName := Name (Stack_ p) ++ "_ethsigner_config" in
  _ <- docker.CopyFileToVolume std env (callContext p) signerConfigVolumeName
         signerConfigPath "firefly.ffsigner" ;;
  check FirstTimeSetup_members p (Members (Stack_ p)) ;;
  check docker.CopyFileToVolume std env (callContext p) ethsignerVolumeName
          (path_Join std [blockchainDir; "password"]) "password" ;;
  ret None.

Definition getCommand (p : EthSignerProvider) (rpcURL : string)
    : Outcome string :=
  if negb useJavaSigner then Ret ""
  else
    match url_Parse std rpcURL with
    | inr err => Panic ("RPC URL invalid '" ++ rpcURL ++ "': " ++ err)
    | inl u =>
        if rpcURL =? "" then
          Panic ("RPC URL invalid '" ++ rpcURL ++ "': %!s(<nil>)")
        else
          let ethsignerCommand : list string := [] in
          let ethsignerCommand := append ethsignerCommand "--logging=DEBUG" in
          let ethsignerCommand :=
            append ethsignerCommand
              ("--chain-id=" ++ Str.itoa (ChainID (Stack_ p))) in
          let ethsignerCommand :=
            append ethsignerCommand
              ("--downstream-http-host=" ++ url.Hostname u) in
          let port := url.Port u in
          let '(ethsignerCommand, port) :=
            if url.Scheme u =? "https" then
              (append ethsignerCommand "--downstream-http-tls-enabled",
               if port =? "" then "443" else port)
            else (ethsignerCommand, port) in
          let ethsignerCommand :=
            if negb (url.Path u =? "") && negb (url.Path u =? "/") then
              append ethsignerCommand
                ("--downstream-http-path=" ++ url.Path u)
            else ethsignerCommand in
          let ethsignerCommand :=
            append ethsignerCommand ("--downstream-http-port=" ++ port) in
          let ethsignerCommand := append ethsignerCommand "multikey-signer" in
          let ethsignerCommand :=
            append ethsignerCommand "--directory=/data/keystore" in
          Ret (Str.Join ethsignerCommand " ")
    end.

(** The loop of [GetDockerServiceDefinition] that builds [addresses]: [i] is
    the index of the head of [members], [len] is [len(p.Stack.Members)]. *)
Fixpoint GetDockerServiceDefinition_members (len i : Z)
    (members : list Member) (addresses : string) : Outcome string :=
  match members with
  | [] => Ret addresses
  | member :: rest =>
      andThen (assertAccount (Account member)) (fun account =>
        let addresses := addresses ++ ethereum.Address account in
        let addresses :=
          if (i + 1 <? len)%Z then addresses ++ "," else addresses in
        GetDockerServiceDefinition_members len (i + 1) rest addresses)
  end.

Definition GetDockerServiceDefinition (p : EthSignerProvider)
    (rpcURL : string) : Outcome (docker.ServiceDefinition LoggingConfig) :=
  andThen
    (GetDockerServiceDefinition_members
       (Z.of_nat (length (Members (Stack_ p)))) 0 (Members (Stack_ p)) "")
    (fun addresses =>
  andThen (getCommand p rpcURL) (fun command =>
  Ret {| docker.ServiceName := "ethsigner";
         docker.Service_ :=
           {| docker.Image := ethsignerImage;
              docker.ContainerName := Name (Stack_ p) ++ "_ethsigner";
              docker.User := "root";
              docker.Command := command;
              docker.Volumes := ["ethsigner:/data"; "ethsigner_config:/etc/firefly"];
              docker.Logging := StandardLogOptions;
              docker.HealthCheck_ :=
                {| docker.Test :=
                     ["CMD"; "curl"; "-X"; "POST";
                      "-H"; "Content-Type: application/json";
                      "-d"; jsonrpcNetVersion;
                      "-w"; "%{http_code}";
                      "-sS"; "--fail"; "http://localhost:8545/"];
                   docker.Interval := "15s";
                   docker.Retries := 60 |};
              docker.Ports :=
                [Str.itoa (ExposedBlockchainPort (Stack_ p)) ++ ":8545"] |};
         docker.VolumeNames := ["ethsigner"; "ethsigner_config"] |})).

(** [ethereum.GenerateAddressAndPrivateKey()] belongs to another package: the
    pair it returns to this call is a parameter. *)
Variable GenerateAddressAndPrivateKey : string * string.

(** The [interface{}] result is [nil] or a [map[string]string] literal, given
    by its entries. *)
Definition CreateAccount (p : EthSignerProvider) (args : list string)
    : M (option (list (string * string)) * option error) :=
  let '(address, privateKey) := GenerateAddressAndPrivateKey in
  err <- writeAccountToDisk p (RuntimeDir (Stack_ p)) address privateKey ;;
  match err with
  | Some e => ret (None, Some e)
  | None =>
      err <- writeTomlKeyFile p (RuntimeDir (Stack_ p)) address ;;
      match err with
      | Some e => ret (None, Some e)
      | None =>
          err <- importAccountToEthsigner p address ;;
          match err with
          | Some e => ret (None, Some e)
          | None =>
              ret (Some [("address", address); ("privateKey", privateKey)],
                   None)
          end
      end
  end.

End Provider.

(** [const useJavaSigner = false] *)
Definition useJavaSigner : bool := false.

End ethsigner.

(** ** Vocabulary for the provisioning sequence *)

Module Steps.

Import types.

(** The members of a stack whose accounts are all Ethereum accounts. *)
Definition ethereumMembers (accounts : list ethereum.Account) : list Member :=
  map (fun a => {| Account := EthereumAccount a |}) accounts.

(** One key import per account, in the order of the list. *)
Definition imports (accounts : list ethereum.Account) : Trace :=
  map (fun a => OpImportAccountToEthsigner (ethereum.Address a)) accounts.

(** A member whose account is not an Ethereum account. *)
Definition foreign (m : Member) : Prop :=
  forall a, Account m <> EthereumAccount a.

Section Prologue.

Variable std : GoStd.
Variable env : Env.

(** The sub-steps of [FirstTimeSetup] that come before its loop over the
    members, as the source has them. *)
Definition FirstTimeSetup_prologue (p : ethsigner.EthSignerProvider)
    : M (option error) :=
  let ethsignerVolumeName := Name (ethsigner.Stack_ p) ++ "_ethsigner" in
  let contractsDir :=
    filepath_Join std [RuntimeDir (ethsigner.Stack_ p); "contracts"] in
  check docker.CreateVolume env (ethsigner.callContext p) ethsignerVolumeName ;;
  check perform env (OpMkdirAll contractsDir ethsigner.perm0755) ;;
  let signerConfigPath :=
    filepath_Join std
      [StackDir (ethsigner.Stack_ p); "runtime"; "config"; "ethsigner.yaml"] in
  let signerConfigVolumeName := Name (ethsigner.Stack_ p) ++ "_ethsigner_config" in
  _ <- docker.CopyFileToVolume std env (ethsigner.callContext p)
         signerConfigVolumeName signerConfigPath "firefly.ffsigner" ;;
  ret None.

(** The copy of the password that ends [FirstTimeSetup]. *)
Definition passwordCopy (p : ethsigner.EthSignerProvider) : M (option error) :=
  docker.CopyFileToVolume std env (ethsigner.callContext p)
    (Name (ethsigner.Stack_ p) ++ "_ethsigner")
    (path_Join std
       [filepath_Join std [RuntimeDir (ethsigner.Stack_ p); "blockchain"];
        "password"])
    "password".

End Prologue.

(** The command [CopyFileToVolume] hands to [docker]. *)
Definition copyFileCmd (std : GoStd) (volumeName sourcePath destPath : string) : Cmd :=
  {| Path := "docker";
     Args :=
       ["docker"; "run"; "--rm";
        "-v"; sourcePath ++ ":/source/" ++ path_Base std sourcePath;
        "-v"; volumeName ++ ":/dest";
        "alpine"; "cp"; "-R";
        path_Join std ["/"; "source"; path_Base std sourcePath];
        path_Join std ["/"; "dest"; destPath]];
     Dir := "." |}.

(** A line as [ReadString] returns it without error: it ends with the
    newline and has no other. *)
Definition fullLine (l : string) : Prop :=
  exists body,
    l = body ++ String docker.newline ""
    /\ Str.hasByte docker.newline body = false.

(** [l] is [l1] and [l2] shuffled together, each in its own order. *)
Inductive Merge {A : Type} : list A -> list A -> list A -> Prop :=
| Merge_nil : Merge [] [] []
| Merge_left x l1 l2 l : Merge l1 l2 l -> Merge (x :: l1) l2 (x :: l)
| Merge_right x l1 l2 l : Merge l1 l2 l -> Merge l1 (x :: l2) (x :: l).

(** [l] starts with [pre]. *)
Definition startsWith {A : Type} (l pre : list A) : Prop :=
  exists rest, l = (pre ++ rest)%list.

(** The two writes [WriteConfig] makes for a member. *)
Definition memberWrites (dir : string) (a : ethereum.Account) : Trace :=
  [OpWriteAccountToDisk dir (ethereum.Address a) (ethereum.PrivateKey a);
   OpWriteTomlKeyFile dir (ethereum.Address a)].

(** Every operation [WriteConfig] can issue for a stack of Ethereum accounts,
    in the order of the source. *)
Definition WriteConfig_script (std : GoStd) (StacksDir : string)
    (p : ethsigner.EthSignerProvider) (options : InitOptions)
    (rpcURL : string) (accounts : list ethereum.Account) : Trace :=
  let initDir :=
    filepath_Join std [StacksDir; Name (ethsigner.Stack_ p); "init"] in
  (OpMkdirAll (filepath_Join std [initDir; "blockchain"]) ethsigner.perm0755
   :: OpWriteFile (filepath_Join std [initDir; "blockchain"; "password"])
        "correcthorsebatterystaple" ethsigner.perm0755
   :: OpWriteSignerConfig (InitOptions_ChainID options) rpcURL
        (filepath_Join std [initDir; "config"; "ethsigner.yaml"])
   :: flat_map (memberWrites (InitDir (ethsigner.Stack_ p))) accounts)%list.

(** Every operation [FirstTimeSetup] can issue for a stack of Ethereum
    accounts, in the order of the source. *)
Definition FirstTimeSetup_script (std : GoStd)
    (p : ethsigner.EthSignerProvider) (accounts : list ethereum.Account)
    : Trace :=
  let S := ethsigner.Stack_ p in
  let createVolume :=
    OpRun (withDir
             (exec_Command "docker" ["volume"; "create"; Name S ++ "_ethsigner"])
             ".") in
  let mkdir :=
    OpMkdirAll (filepath_Join std [RuntimeDir S; "contracts"])
      ethsigner.perm0755 in
  let configCopy :=
    OpRun (copyFileCmd std (Name S ++ "_ethsigner_config")
             (filepath_Join std
                [StackDir S; "runtime"; "config"; "ethsigner.yaml"])
             "firefly.ffsigner") in
  let passwordCopy :=
    OpRun (copyFileCmd std (Name S ++ "_ethsigner")
             (path_Join std
                [filepath_Join std [RuntimeDir S; "blockchain"]; "password"])
             "password") in
  createVolume :: mkdir :: configCopy
    :: List.app (imports accounts) [passwordCopy].

End Steps.

(** ** Sample values

    Concrete libraries, processes and environments on which the definitions
    above can be evaluated. *)

Module Sample.

Definition lastSegment (p : string) : string :=
  (fix go (cur rest : string) : string :=
     match rest with
     | EmptyString => cur
     | String c rest' =>
         if Ascii.eqb c "/"%char then go "" rest' else go (cur ++ String c "") rest'
     end) "" p.

Definition rpcExample : url.URL :=
  {| url.Scheme := "https"; url.Hostname := "rpc.example";
     url.Port := "9999"; url.Path := "/v1" |}.

Definition rpcLocal : url.URL :=
  {| url.Scheme := "http"; url.Hostname := "rpc.local";
     url.Port := ""; url.Path := "" |}.

Definition emptyURL : url.URL :=
  {| url.Scheme := ""; url.Hostname := ""; url.Port := ""; url.Path := "" |}.

(** Joins with a slash, takes the last segment as base name, and parses the
    three URLs above (what [url.Parse] returns for them), rejecting every
    other string. *)
Definition std : GoStd :=
  {| filepath_Join := fun elems => Str.Join elems "/";
     path_Join := fun elems => Str.Join elems "/";
     path_Base := lastSegment;
     url_Parse := fun s =>
       if s =? "https://rpc.example:9999/v1" then inl rpcExample
       else if s =? "http://rpc.local" then inl rpcLocal
       else if s =? "" then inl emptyURL
       else inr ("parse " ++ s ++ ": invalid URI") |}.

(** A process that writes [out] to its standard output, [err] to its
    standard error, and exits with [code], under the schedule [sched]. *)
Definition proc (out err : string) (sched : list Pick) (code : Z) : Exec :=
  {| stdoutPipeErr := None; stderrPipeErr := None;
     stdoutPipe := {| written := out; readErr := None |};
     stderrPipe := {| written := err; readErr := None |};
     picks := sched; exitCode := code |}.

(** [s] as a full line. *)
Definition line (s : string) : string := s ++ String docker.newline "".

(** Every command behaves as [x]; every other operation succeeds. *)
Definition always (x : Exec) : Env :=
  {| hostResult := fun _ _ => None; process := fun _ _ => x |}.

Definition loud : docker.Context :=
  {| docker.VerbosityFromContext := true;
     docker.Value := fun _ => docker.AnyNil |}.

Definition dockerPs : Cmd := withDir (exec_Command "docker" ["ps"]) ".".

(** A silent process; the [select] finds standard error closed. *)
Definition silent (code : Z) : Exec := proc "" "" [RecvLine Stderr] code.

(** Every operation succeeds, every process is silent and exits 0. *)
Definition calm : Env :=
  {| hostResult := fun _ _ => None; process := fun _ _ => silent 0 |}.

(** As [calm], but the operations [bad] selects fail, and the commands
    [badCmd] selects exit with status 1. *)
Definition failing (bad : Op -> bool) (badCmd : Cmd -> bool) : Env :=
  {| hostResult := fun _ o => if bad o then Some "operation failed" else None;
     process := fun _ c => if badCmd c then silent 1 else silent 0 |}.

Definition never {A} (_ : A) : bool := false.

Definition isSignerConfigWrite (o : Op) : bool :=
  match o with OpWriteSignerConfig _ _ _ => true | _ => false end.

Definition isMkdirAll (o : Op) : bool :=
  match o with OpMkdirAll _ _ => true | _ => false end.

Definition isImportOf (address : string) (o : Op) : bool :=
  match o with
  | OpImportAccountToEthsigner a => a =? address
  | _ => false
  end.

(** The command mounts the volume [volume] as its destination. *)
Definition mounts (volume : string) (c : Cmd) : bool :=
  existsb (String.eqb (volume ++ ":/dest")) (Args c).

Definition runsIn (h : Trace) : nat :=
  length (filter (fun o => match o with OpRun _ => true | _ => false end) h).

(** Every command fails (exit status [i + 1] at its [i]-th run) until [k]
    commands have been run, and succeeds from then on. *)
Definition flaky (k : nat) : Env :=
  {| hostResult := fun _ _ => None;
     process := fun h _ =>
       if (runsIn h <? k)%nat then silent (Z.of_nat (S (runsIn h)))
       else silent 0 |}.

(** [n] runs of the command [c] after the trace [h]. *)
Definition runs (h : Trace) (c : Cmd) (n : nat) : Trace :=
  (h ++ repeat (OpRun c) n)%list.

Definition quiet : docker.Context :=
  {| docker.VerbosityFromContext := false;
     docker.Value := fun _ => docker.AnyNil |}.

Definition withCompose (v : Z) : docker.Context :=
  {| docker.VerbosityFromContext := false;
     docker.Value := fun k =>
       match k with
       | docker.CtxComposeVersionKey => docker.AnyDockerComposeVersion v
       | docker.CtxIsLogCmdKey => docker.AnyNil
       end |}.

Definition acct (address : string) : ethereum.Account :=
  {| ethereum.Address := address; ethereum.PrivateKey := "key-" ++ address |}.

Definition account (address : string) : types.Member :=
  {| types.Account := types.EthereumAccount (acct address) |}.

(** A member whose account is a value of another blockchain's type. *)
Definition fabricMember : types.Member :=
  {| types.Account := types.OtherAccount "*fabric.Account" |}.

Definition stack (members : list types.Member) : types.Stack :=
  {| types.Name := "dev";
     types.Members := members;
     types.InitDir := "/stacks/dev/init";
     types.RuntimeDir := "/stacks/dev/runtime";
     types.StackDir := "/stacks/dev";
     types.ExposedBlockchainPort := 5100;
     types.ChainID := 2021 |}.

Definition provider (members : list types.Member) : ethsigner.EthSignerProvider :=
  {| ethsigner.Verbose := false; ethsigner.Stack_ := stack members |}.

(** The decoded configuration of an image with the label [version] set to
    [v0.9.1], and of an image whose configuration has [null] for labels. *)
Definition labels : docker.JSONMap :=
  fun k => if k =? "version" then Some (docker.DecodedString "v0.9.1") else None.

Definition labelled : docker.JSONMap :=
  fun k =>
    if k =? "config" then
      Some (docker.DecodedMap
              (fun k' =>
                 if k' =? "Labels" then Some (docker.DecodedMap labels)
                 else if k' =? "User" then Some (docker.DecodedString "root")
                 else None))
    else if k =? "architecture" then Some (docker.DecodedString "amd64")
    else None.

Definition unlabelled : docker.JSONMap :=
  fun k =>
    if k =? "config" then
      Some (docker.DecodedMap
              (fun k' => if k' =? "Labels" then Some docker.DecodedNil else None))
    else None.

(** A registry that knows the two images [signer] and [bare], and a decoder
    that decodes what the registry returns. *)
Definition registry (image : string) : string * option error :=
  if image =? "signer" then ("<labelled>", None)
  else if image =? "bare" then ("<unlabelled>", None)
  else ("", Some ("GET " ++ image ++ ": MANIFEST_UNKNOWN")).

Definition decoder (b : string) : docker.JSONMap * option error :=
  if b =? "<labelled>" then (labelled, None)
  else if b =? "<unlabelled>" then (unlabelled, None)
  else (docker.nilMap, Some "unexpected end of JSON input").

End Sample.

(** * Properties *)

Unset Implicit Arguments.

(** ** Strings *)

Module StrFacts.
Import Str.

Lemma app_assoc (a b c : string) : (a ++ b) ++ c = a ++ b ++ c.
Proof. induction a as [|x a IH]; simpl; [reflexivity | now rewrite IH]. Qed.

Lemma app_nil_r (a : string) : a ++ "" = a.
Proof. induction a as [|x a IH]; simpl; [reflexivity | now rewrite IH]. Qed.

Lemma prefix_app (p s : string) : prefix p (p ++ s) = true.
Proof.
  induction p as [|x p IH]; simpl.
  - now destruct s.
  - destruct (ascii_dec x x) as [_|n]; [exact IH | now elim n].
Qed.

Lemma prefix_split (p s : string) :
  prefix p s = true -> exists post, s = p ++ post.
Proof.
  revert s; induction p as [|x p IH]; intros s H.
  - now exists s.
  - destruct s as [|y s]; simpl in H; [discriminate|].
    destruct (ascii_dec x y) as [->|]; [|discriminate].
    destruct (IH _ H) as [post ->]. now exists post.
Qed.

Lemma containsb_correct (s sub : string) :
  containsb s sub = true <-> contains s sub.
Proof.
  split.
  - induction s as [|c s IH]; cbn [containsb]; intros H.
    + rewrite orb_false_r in H. destruct (prefix_split _ _ H) as [post E].
      now exists "", post.
    + apply orb_prop in H. destruct H as [H|H].
      * destruct (prefix_split _ _ H) as [post E]. now exists "", post.
      * destruct (IH H) as (pre & post & ->). now exists (String c pre), post.
  - intros (pre & post & ->). induction pre as [|c pre IH].
    + change ("" ++ sub ++ post) with (sub ++ post).
      destruct (sub ++ post) eqn:E; cbn [containsb];
        rewrite <- E, prefix_app; reflexivity.
    + change (String c pre ++ sub ++ post) with (String c (pre ++ sub ++ post)).
      cbn [containsb]. rewrite IH. apply orb_true_r.
Qed.

Lemma not_contains (s sub : string) :
  containsb s sub = false -> ~ contains s sub.
Proof.
  intros H C. apply containsb_correct in C. congruence.
Qed.

Lemma contains_middle (pre sub post : string) : contains (pre ++ sub ++ post) sub.
Proof. now exists pre, post. Qed.

Lemma contains_end (pre sub : string) : contains (pre ++ sub) sub.
Proof. exists pre, "". now rewrite app_nil_r. Qed.

Lemma contains_start (sub post : string) : contains (sub ++ post) sub.
Proof. now exists "", post. Qed.

End StrFacts.

(** ** The docker package *)

Module DockerFacts.
Import docker.
Import Sample.

Lemma runs_0 h c : runs h c 0 = h.
Proof. unfold runs. simpl. apply app_nil_r. Qed.

Lemma runs_S h c n : runs h c (S n) = runs (h ++ [OpRun c])%list c n.
Proof. unfold runs. simpl. now rewrite <- app_assoc. Qed.

Lemma runCommand_trace env ctx cmd h :
  fst (runCommand env ctx cmd h) = (h ++ [OpRun cmd])%list.
Proof.
  unfold runCommand, bind, start.
  destruct (outputCapture _ _ _ _ _); try reflexivity.
  destruct (negb _); reflexivity.
Qed.

Lemma RunDockerCommand_trace env ctx wd command h :
  fst (RunDockerCommand env ctx wd command h)
  = (h ++ [OpRun (withDir (exec_Command "docker" command) wd)])%list.
Proof.
  unfold RunDockerCommand, bind.
  pose proof (runCommand_trace env ctx (withDir (exec_Command "docker" command) wd) h) as T.
  destruct (runCommand _ _ _ _) as [h' [r| |]]; simpl in *; now subst.
Qed.

Lemma RunDockerCommand_eq env ctx wd command h o :
  snd (RunDockerCommand env ctx wd command h) = o ->
  RunDockerCommand env ctx wd command h
  = ((h ++ [OpRun (withDir (exec_Command "docker" command) wd)])%list, o).
Proof.
  intros <-. rewrite <- (RunDockerCommand_trace env ctx). now destruct (RunDockerCommand _ _ _ _ _).
Qed.

Section Retry.

Variable env : Env.
Variable ctx : Context.
Variable workingDir : string.
Variable retries : Z.
Variable command : list string.

Let cmd : Cmd := withDir (exec_Command "docker" command) workingDir.

Lemma retryLoop_failure attempt h e :
  snd (RunDockerCommand env ctx workingDir command h) = Ret (Some e) ->
  retryLoop env ctx workingDir retries command attempt h
  = if Z_lt_dec attempt retries
    then retryLoop env ctx workingDir retries command (attempt + 1)
           (h ++ [OpRun cmd])%list
    else ((h ++ [OpRun cmd])%list, Ret (Some e)).
Proof.
  intros H. apply RunDockerCommand_eq in H.
  rewrite retryLoop_equation_1. rewrite H. simpl.
  destruct (Z_lt_dec attempt retries); reflexivity.
Qed.

Lemma retryLoop_success attempt h :
  snd (RunDockerCommand env ctx workingDir command h) = Ret None ->
  retryLoop env ctx workingDir retries command attempt h
  = ((h ++ [OpRun cmd])%list, Ret None).
Proof.
  intros H. apply RunDockerCommand_eq in H.
  rewrite retryLoop_equation_1. rewrite H. reflexivity.
Qed.

Lemma retryLoop_last attempt h :
  ~ attempt < retries ->
  retryLoop env ctx workingDir retries command attempt h
  = RunDockerCommand env ctx workingDir command h.
Proof.
  intros H. rewrite retryLoop_equation_1.
  destruct (RunDockerCommand env ctx workingDir command h) as [h' [[e|]| |]];
    simpl; try reflexivity.
  destruct (Z_lt_dec attempt retries); [contradiction | reflexivity].
Qed.

Lemma retryLoop_succeeds_after (k : nat) : forall attempt h (errs : nat -> error),
  (forall i, (i < k)%nat ->
     snd (RunDockerCommand env ctx workingDir command (runs h cmd i))
     = Ret (Some (errs i))) ->
  snd (RunDockerCommand env ctx workingDir command (runs h cmd k)) = Ret None ->
  attempt + Z.of_nat k <= retries ->
  retryLoop env ctx workingDir retries command attempt h
  = (runs h cmd (S k), Ret None).
Proof.
  induction k as [|k IH]; intros attempt h errs Hfail Hok Hle.
  - rewrite runs_0 in Hok. rewrite (retryLoop_success _ _ Hok).
    now rewrite runs_S, runs_0.
  - assert (H0 := Hfail 0%nat ltac:(lia)). rewrite runs_0 in H0.
    rewrite (retryLoop_failure _ _ _ H0).
    destruct (Z_lt_dec attempt retries) as [_|n]; [|lia].
    rewrite (runs_S h).
    apply IH with (errs := fun i => errs (S i)).
    + intros i Hi. rewrite <- runs_S. apply Hfail. lia.
    + now rewrite <- runs_S.
    + lia.
Qed.

Lemma retryLoop_exhausts (r : nat) : forall attempt h (errs : nat -> error),
  Z.to_nat (retries - attempt) = r ->
  (forall i, (i <= r)%nat ->
     snd (RunDockerCommand env ctx workingDir command (runs h cmd i))
     = Ret (Some (errs i))) ->
  retryLoop env ctx workingDir retries command attempt h
  = (runs h cmd (S r), Ret (Some (errs r))).
Proof.
  induction r as [|r IH]; intros attempt h errs Hr Hfail;
    assert (H0 := Hfail 0%nat ltac:(lia)); rewrite runs_0 in H0;
    rewrite (retryLoop_failure _ _ _ H0);
    destruct (Z_lt_dec attempt retries) as [l|n]; try lia.
  - now rewrite runs_S, runs_0.
  - rewrite (runs_S h).
    apply IH with (errs := fun i => errs (S i)).
    + lia.
    + intros i Hi. rewrite <- runs_S. apply Hfail. lia.
Qed.

End Retry.

(** A negative retry count behaves as the count 0: one invocation. *)
Lemma RunDockerCommandRetry_negative env ctx workingDir retries command h :
  retries < 0 ->
  RunDockerCommandRetry env ctx workingDir retries command h
  = RunDockerCommand env ctx workingDir command h.
Proof.
  intros H. unfold RunDockerCommandRetry. apply retryLoop_last. lia.
Qed.

(** C4. An operation that fails exactly [k] times and then succeeds: with
    [retries >= k] the retrying invoker returns success after exactly [k + 1]
    invocations of the command, the first success ending the loop; with
    [0 <= retries < k] it makes exactly [retries + 1] invocations and returns
    the error of the last of them, the [(retries + 1)]-th failure. *)
Theorem RunDockerCommandRetry_fails_k_then_succeeds
    env ctx workingDir retries command h (k : nat) (errs : nat -> error) :
  let cmd := withDir (exec_Command "docker" command) workingDir in
  (forall i, (i < k)%nat ->
     snd (RunDockerCommand env ctx workingDir command (runs h cmd i))
     = Ret (Some (errs i))) ->
  snd (RunDockerCommand env ctx workingDir command (runs h cmd k)) = Ret None ->
  (Z.of_nat k <= retries ->
     RunDockerCommandRetry env ctx workingDir retries command h
     = (runs h cmd (k + 1), Ret None))
  /\ (0 <= retries < Z.of_nat k ->
      RunDockerCommandRetry env ctx workingDir retries command h
      = (runs h cmd (Z.to_nat retries + 1),
         Ret (Some (errs (Z.to_nat retries))))).
Proof.
  intros cmd Hfail Hok. unfold RunDockerCommandRetry. split; intros Hk.
  - rewrite Nat.add_1_r. apply retryLoop_succeeds_after with (errs := errs); auto.
  - rewrite Nat.add_1_r. apply retryLoop_exhausts.
    + f_equal. lia.
    + intros i Hi. apply Hfail. lia.
Qed.

Lemma RunDockerCommandRetry_fails_k_then_succeeds_witness :
  let command := ["volume"; "create"; "dev_ethsigner"] in
  let cmd := withDir (exec_Command "docker" command) "." in
  RunDockerCommandRetry (flaky 2) quiet "." 3 command []
  = (runs [] cmd 3, Ret None)
  /\ RunDockerCommandRetry (flaky 2) quiet "." 1 command []
     = (runs [] cmd 2, Ret (Some "docker volume create dev_ethsigner [2] ")).
Proof.
  intros command cmd.
  pose (errs := fun i : nat =>
    "docker volume create dev_ethsigner [" ++ Str.itoa (Z.of_nat (S i)) ++ "] ").
  assert (Hfail : forall i, (i < 2)%nat ->
            snd (RunDockerCommand (flaky 2) quiet "." command (runs [] cmd i))
            = Ret (Some (errs i))).
  { intros [|[|i]] Hi; [reflexivity | reflexivity | lia]. }
  assert (Hok : snd (RunDockerCommand (flaky 2) quiet "." command (runs [] cmd 2))
                = Ret None) by reflexivity.
  split.
  - apply (proj1 (RunDockerCommandRetry_fails_k_then_succeeds
                    (flaky 2) quiet "." 3 command [] 2%nat errs Hfail Hok)).
    simpl; lia.
  - apply (proj2 (RunDockerCommandRetry_fails_k_then_succeeds
                    (flaky 2) quiet "." 1 command [] 2%nat errs Hfail Hok)).
    simpl; lia.
Defined.

(** *** The compose dispatcher *)

(** C5. By cases on the variant held by the context: with [ComposeV1] the
    dispatcher runs the binary [docker-compose] on the arguments as given;
    with [ComposeV2] it runs [docker] on [compose] followed by the arguments;
    with any other value (none detected) it runs no command and returns an
    error. *)
Theorem RunDockerComposeCommand_by_variant env ctx workingDir command h :
  let variant := Value ctx CtxComposeVersionKey in
  let standalone :=
    {| Path := "docker-compose"; Args := "docker-compose" :: command;
       Dir := workingDir |} in
  let integrated :=
    {| Path := "docker"; Args := "docker" :: "compose" :: command;
       Dir := workingDir |} in
  (variant = AnyDockerComposeVersion ComposeV1 ->
     RunDockerComposeCommand env ctx workingDir command h
     = (h ++ [OpRun standalone],
        snd ((r <- runCommand env ctx standalone ;; ret (snd r)) h))%list)
  /\ (variant = AnyDockerComposeVersion ComposeV2 ->
      RunDockerComposeCommand env ctx workingDir command h
      = (h ++ [OpRun integrated],
         snd ((r <- runCommand env ctx integrated ;; ret (snd r)) h))%list)
  /\ (variant <> AnyDockerComposeVersion ComposeV1 ->
      variant <> AnyDockerComposeVersion ComposeV2 ->
      RunDockerComposeCommand env ctx workingDir command h
      = (h, Ret (Some "No version for docker-compose has been detected."))).
Proof.
  intros variant standalone integrated.
  assert (T : forall c,
            (r <- runCommand env ctx c ;; ret (snd r)) h
            = ((h ++ [OpRun c])%list,
               snd ((r <- runCommand env ctx c ;; ret (snd r)) h))).
  { intros c. unfold bind. pose proof (runCommand_trace env ctx c h) as T.
    destruct (runCommand env ctx c h) as [h' [r| |]]; simpl in *; now subst. }
  unfold RunDockerComposeCommand; fold variant.
  split; [|split].
  - intros ->. simpl. apply T.
  - intros ->. simpl. apply T.
  - intros H1 H2. destruct variant as [| |v|]; try reflexivity.
    destruct (Z.eqb_spec v ComposeV1) as [->|_]; [now elim H1|].
    destruct (Z.eqb_spec v ComposeV2) as [->|_]; [now elim H2|].
    reflexivity.
Qed.

Lemma RunDockerComposeCommand_by_variant_witness :
  let args := ["up"; "-d"] in
  RunDockerComposeCommand calm (withCompose ComposeV1) "/stacks/dev" args []
  = ([OpRun {| Path := "docker-compose"; Args := "docker-compose" :: args;
               Dir := "/stacks/dev" |}], Ret None)
  /\ RunDockerComposeCommand calm (withCompose ComposeV2) "/stacks/dev" args []
     = ([OpRun {| Path := "docker"; Args := "docker" :: "compose" :: args;
                  Dir := "/stacks/dev" |}], Ret None)
  /\ RunDockerComposeCommand calm (withCompose None_) "/stacks/dev" args []
     = ([], Ret (Some "No version for docker-compose has been detected.")).
Proof.
  intros args. split; [|split].
  - apply (proj1 (RunDockerComposeCommand_by_variant
                    calm (withCompose ComposeV1) "/stacks/dev" args [])).
    reflexivity.
  - apply (proj1 (proj2 (RunDockerComposeCommand_by_variant
                    calm (withCompose ComposeV2) "/stacks/dev" args []))).
    reflexivity.
  - apply (proj2 (proj2 (RunDockerComposeCommand_by_variant
                    calm (withCompose None_) "/stacks/dev" args [])));
      simpl; discriminate.
Defined.

(** *** The process runner *)

Lemma exitError_contains cmd statusCode outputBuff :
  Str.contains (exitError cmd statusCode outputBuff) (Str.Join (Args cmd) " ")
  /\ Str.contains (exitError cmd statusCode outputBuff) (Str.itoa statusCode)
  /\ Str.contains (exitError cmd statusCode outputBuff) outputBuff.
Proof.
  unfold exitError. split; [|split].
  - apply StrFacts.contains_start.
  - exists (Str.Join (Args cmd) " " ++ " ["), ("] " ++ outputBuff).
    now rewrite !StrFacts.app_assoc.
  - exists (Str.Join (Args cmd) " " ++ " [" ++ Str.itoa statusCode ++ "] "), "".
    now rewrite !StrFacts.app_assoc, StrFacts.app_nil_r.
Qed.

Lemma runCommand_cases env ctx cmd h :
  let x := process env h cmd in
  runCommand env ctx cmd h
  = ((h ++ [OpRun cmd])%list,
     match outputCapture (isLogCmd ctx) (VerbosityFromContext ctx) (picks x)
             (pipeCommand x) "" with
     | Parked => Blocked
     | Failed e => Ret ("", Some e)
     | Broke outputBuff =>
         if (exitCode x =? 0)%Z then Ret (outputBuff, None)
         else Ret ("", Some (exitError cmd (exitCode x) outputBuff))
     end).
Proof.
  unfold runCommand, bind, start. simpl.
  destruct (outputCapture _ _ _ _ _); try reflexivity.
  now destruct (exitCode (process env h cmd) =? 0)%Z.
Qed.

(** C6. When the capture loop has been left and the command has exited with
    a status other than 0, the runner returns a failure whose
    message contains the command line, the exit status and the whole capture
    buffer; with status 0 it returns the buffer as output. The runner never
    returns success for a status other than 0. *)
Theorem runCommand_exit_status env ctx cmd h :
  let x := process env h cmd in
  (forall output,
     snd (runCommand env ctx cmd h) = Ret (output, None) -> exitCode x = 0)
  /\ (forall outputBuff,
       outputCapture (isLogCmd ctx) (VerbosityFromContext ctx) (picks x)
         (pipeCommand x) "" = Broke outputBuff ->
       (exitCode x <> 0 ->
          exists msg,
            runCommand env ctx cmd h = ((h ++ [OpRun cmd])%list, Ret ("", Some msg))
            /\ msg = Str.Join (Args cmd) " " ++ " [" ++ Str.itoa (exitCode x)
                      ++ "] " ++ outputBuff
            /\ Str.contains msg (Str.Join (Args cmd) " ")
            /\ Str.contains msg (Str.itoa (exitCode x))
            /\ Str.contains msg outputBuff)
       /\ (exitCode x = 0 ->
           runCommand env ctx cmd h
           = ((h ++ [OpRun cmd])%list, Ret (outputBuff, None)))).
Proof.
  intros x. rewrite runCommand_cases. fold x. split.
  - intros output. simpl.
    destruct (outputCapture _ _ _ _ _); try discriminate.
    destruct (Z.eqb_spec (exitCode x) 0); [auto | discriminate].
  - intros outputBuff ->. split; intros Hc.
    + exists (exitError cmd (exitCode x) outputBuff). split; [|split].
      * destruct (Z.eqb_spec (exitCode x) 0); [contradiction | reflexivity].
      * reflexivity.
      * apply exitError_contains.
    + rewrite Hc. reflexivity.
Qed.

Lemma runCommand_exit_status_witness :
  let failed := proc (line "no such volume") "" [RecvLine Stdout; RecvLine Stderr] 1 in
  let fine := proc (line "dev_ethsigner") "" [RecvLine Stdout; RecvLine Stderr] 0 in
  (exists msg,
     runCommand (always failed) quiet dockerPs [] = ([OpRun dockerPs], Ret ("", Some msg))
     /\ msg = "docker ps [1] " ++ line "no such volume"
     /\ Str.contains msg "docker ps"
     /\ Str.contains msg "1"
     /\ Str.contains msg (line "no such volume"))
  /\ runCommand (always fine) quiet dockerPs []
     = ([OpRun dockerPs], Ret (line "dev_ethsigner", None)).
Proof.
  intros failed fine. split.
  - apply (proj1 (proj2 (runCommand_exit_status (always failed) quiet dockerPs [])
                    (line "no such volume") eq_refl)).
    simpl. discriminate.
  - apply (proj2 (proj2 (runCommand_exit_status (always fine) quiet dockerPs [])
                    (line "dev_ethsigner") eq_refl)).
    reflexivity.
Defined.

(** The loop is left as soon as the standard-error channel is found closed,
    whatever the standard-output drainer has still to send. *)
Lemma outputCapture_stderr_closed_first logCmd verbose sched out :
  outputCapture logCmd verbose (RecvLine Stderr :: sched)
    (Draining out closed) "" = Broke "".
Proof. reflexivity. Qed.

(** C9, on the code: a command writes the line [hello] to its standard
    output, nothing to its standard error, and exits 0. When the [select]
    takes the closed standard-error channel before the line, the loop is left
    with the standard-output drainer still holding it, and the runner returns
    the empty string as output. *)
Theorem runCommand_stops_at_first_closed_stream :
  let x := proc (line "hello") "" [RecvLine Stderr] 0 in
  pipeCommand x
  = Draining {| toSend := [line "hello"]; failure := None |} closed
  /\ runCommand (always x) quiet dockerPs [] = ([OpRun dockerPs], Ret ("", None)).
Proof. split; reflexivity. Qed.

(** With verbosity on, the loop is also left when the standard-output channel
    is found closed: a line of standard error not yet received is lost. *)
Lemma runCommand_verbose_stops_at_closed_stdout :
  runCommand (always (proc "" (line "warning") [RecvLine Stdout] 0)) loud dockerPs []
  = ([OpRun dockerPs], Ret ("", None)).
Proof. reflexivity. Qed.

(** Output that does not end in a newline never reaches the buffer:
    [readPipe] drops what [ReadString] returns together with [io.EOF]. *)
Lemma runCommand_drops_unfinished_line :
  runCommand
    (always (proc (line "one" ++ "two") "" [RecvLine Stdout; RecvLine Stdout; RecvLine Stderr] 0))
    quiet dockerPs []
  = ([OpRun dockerPs], Ret (line "one", None)).
Proof. reflexivity. Qed.

(** When every line is received before either channel is found closed, the
    buffer holds the lines in the order of the schedule. *)
Lemma runCommand_interleaves :
  runCommand
    (always (proc (line "a" ++ line "c") (line "b")
               [RecvLine Stdout; RecvLine Stderr; RecvLine Stdout; RecvLine Stderr] 0))
    quiet dockerPs []
  = ([OpRun dockerPs], Ret (line "a" ++ line "b" ++ line "c", None)).
Proof. reflexivity. Qed.

End DockerFacts.

(** ** The ethsigner provider *)

Module EthsignerFacts.
Import types ethsigner Steps.

Lemma CopyFileToVolume_trace std env ctx volumeName sourcePath destPath h :
  fst (docker.CopyFileToVolume std env ctx volumeName sourcePath destPath h)
  = (h ++ [OpRun (copyFileCmd std volumeName sourcePath destPath)])%list.
Proof. apply DockerFacts.RunDockerCommand_trace. Qed.

(** [check m ;; ret None] is [m]. *)
Lemma check_ret_None (m : M (option error)) h :
  (check m ;; ret None) h = m h.
Proof.
  unfold bind, ret. destruct (m h) as [h' [[e|]| |]]; reflexivity.
Qed.

Lemma FirstTimeSetup_unfold std env p h :
  FirstTimeSetup std env p h
  = (check FirstTimeSetup_prologue std env p ;;
     check FirstTimeSetup_members env p (Members (Stack_ p)) ;;
     passwordCopy std env p) h.
Proof.
  unfold FirstTimeSetup, FirstTimeSetup_prologue, passwordCopy, bind, ret.
  destruct (docker.CreateVolume _ _ _ _) as [h1 [[e|]| |]]; try reflexivity.
  destruct (perform _ _ _) as [h2 [[e|]| |]]; try reflexivity.
  destruct (docker.CopyFileToVolume _ _ _ _ _ _ _) as [h3 [r| |]]; try reflexivity.
  destruct (FirstTimeSetup_members _ _ _ _) as [h4 [[e|]| |]]; try reflexivity.
  destruct (docker.CopyFileToVolume _ _ _ _ _ _ _) as [h5 [[e|]| |]]; reflexivity.
Qed.

Section Members.

Variable env : Env.
Variable p : EthSignerProvider.

Lemma imports_app pre post : imports (pre ++ post) = (imports pre ++ imports post)%list.
Proof. apply map_app. Qed.

Lemma imports_length accounts : length (imports accounts) = length accounts.
Proof. apply length_map. Qed.

(** The loop runs through a prefix whose imports succeed. *)
Lemma FirstTimeSetup_members_prefix pre : forall rest h,
  (forall pre' a post,
     pre = (pre' ++ a :: post)%list ->
     hostResult env (h ++ imports pre')%list
       (OpImportAccountToEthsigner (ethereum.Address a)) = None) ->
  FirstTimeSetup_members env p (ethereumMembers pre ++ rest)%list h
  = FirstTimeSetup_members env p rest (h ++ imports pre)%list.
Proof.
  induction pre as [|a pre IH]; intros rest h Hok.
  - simpl. now rewrite app_nil_r.
  - assert (Ha := Hok [] a pre eq_refl). simpl in Ha. rewrite app_nil_r in Ha.
    cbn [ethereumMembers map app FirstTimeSetup_members Account].
    unfold bind at 1. unfold lift at 1. cbn [assertAccount].
    unfold bind at 1. unfold importAccountToEthsigner at 1, perform at 1.
    rewrite Ha. fold (ethereumMembers pre).
    rewrite IH.
    + cbn [imports map]. now rewrite <- app_assoc.
    + intros pre' a' post ->.
      specialize (Hok (a :: pre') a' post eq_refl).
      cbn [imports map] in Hok. now rewrite <- app_assoc.
Qed.

Lemma FirstTimeSetup_members_all accounts h :
  (forall pre a post,
     accounts = (pre ++ a :: post)%list ->
     hostResult env (h ++ imports pre)%list
       (OpImportAccountToEthsigner (ethereum.Address a)) = None) ->
  FirstTimeSetup_members env p (ethereumMembers accounts) h
  = ((h ++ imports accounts)%list, Ret None).
Proof.
  intros Hok.
  rewrite <- (app_nil_r (ethereumMembers accounts)).
  now rewrite FirstTimeSetup_members_prefix.
Qed.

Lemma FirstTimeSetup_members_fails pre a post h e :
  (forall pre' a' post',
     pre = (pre' ++ a' :: post')%list ->
     hostResult env (h ++ imports pre')%list
       (OpImportAccountToEthsigner (ethereum.Address a')) = None) ->
  hostResult env (h ++ imports pre)%list
    (OpImportAccountToEthsigner (ethereum.Address a)) = Some e ->
  FirstTimeSetup_members env p (ethereumMembers (pre ++ a :: post)) h
  = ((h ++ imports pre ++ [OpImportAccountToEthsigner (ethereum.Address a)])%list,
     Ret (Some e)).
Proof.
  intros Hok Hfail. unfold ethereumMembers. rewrite map_app.
  fold (ethereumMembers pre). rewrite FirstTimeSetup_members_prefix by exact Hok.
  cbn [map FirstTimeSetup_members Account].
  unfold bind at 1. unfold lift at 1. cbn [assertAccount].
  unfold bind at 1. unfold importAccountToEthsigner at 1, perform at 1.
  rewrite Hfail. unfold ret. now rewrite <- app_assoc.
Qed.

End Members.

(** C3. Once the sub-steps before the loop have returned, leaving the trace
    [h1], a stack of [n] Ethereum accounts gets: when every import succeeds,
    exactly the [n] imports, in the order of the members, and only then the
    password copy, whose result is the result of [FirstTimeSetup]; when the
    import of one member fails, the imports up to and including that member
    and nothing after it: no later import, no password copy. *)
Theorem FirstTimeSetup_imports_in_order std env p h h1 accounts :
  Members (Stack_ p) = ethereumMembers accounts ->
  FirstTimeSetup_prologue std env p h = (h1, Ret None) ->
  ((forall pre a post,
      accounts = (pre ++ a :: post)%list ->
      hostResult env (h1 ++ imports pre)%list
        (OpImportAccountToEthsigner (ethereum.Address a)) = None) ->
     FirstTimeSetup std env p h
     = passwordCopy std env p (h1 ++ imports accounts)%list
     /\ length (imports accounts) = length (Members (Stack_ p))
     /\ fst (FirstTimeSetup std env p h)
        = (h1 ++ imports accounts
              ++ [OpRun (copyFileCmd std (Name (Stack_ p) ++ "_ethsigner")
                           (path_Join std
                              [filepath_Join std
                                 [RuntimeDir (Stack_ p); "blockchain"];
                               "password"])
                           "password")])%list)
  /\ (forall pre a post e,
        accounts = (pre ++ a :: post)%list ->
        (forall pre' a' post',
           pre = (pre' ++ a' :: post')%list ->
           hostResult env (h1 ++ imports pre')%list
             (OpImportAccountToEthsigner (ethereum.Address a')) = None) ->
        hostResult env (h1 ++ imports pre)%list
          (OpImportAccountToEthsigner (ethereum.Address a)) = Some e ->
        FirstTimeSetup std env p h
        = ((h1 ++ imports pre
               ++ [OpImportAccountToEthsigner (ethereum.Address a)])%list,
           Ret (Some e))).
Proof.
  intros HM Hpro. split.
  - intros Hok.
    assert (E : FirstTimeSetup std env p h
                = passwordCopy std env p (h1 ++ imports accounts)%list).
    { rewrite FirstTimeSetup_unfold. unfold bind at 1. rewrite Hpro.
      unfold bind at 1. rewrite HM, FirstTimeSetup_members_all by exact Hok.
      reflexivity. }
    split; [exact E | split].
    + rewrite HM. unfold imports, ethereumMembers. now rewrite !length_map.
    + rewrite E. unfold passwordCopy.
      rewrite CopyFileToVolume_trace. now rewrite <- app_assoc.
  - intros pre a post e -> Hok Hfail.
    rewrite FirstTimeSetup_unfold. unfold bind at 1. rewrite Hpro.
    unfold bind at 1.
    rewrite HM, (FirstTimeSetup_members_fails env p pre a post h1 e Hok Hfail).
    reflexivity.
Qed.

Lemma FirstTimeSetup_imports_in_order_witness :
  let accounts := [Sample.acct "0xa1"; Sample.acct "0xb2"; Sample.acct "0xc3"] in
  let p := Sample.provider (ethereumMembers accounts) in
  let stubborn := Sample.failing (Sample.isImportOf "0xb2") Sample.never in
  let h1 := fst (FirstTimeSetup_prologue Sample.std Sample.calm p []) in
  (FirstTimeSetup Sample.std Sample.calm p []
   = passwordCopy Sample.std Sample.calm p (h1 ++ imports accounts)%list
   /\ length (imports accounts) = length (Members (Stack_ p))
   /\ fst (FirstTimeSetup Sample.std Sample.calm p [])
      = (h1 ++ imports accounts
            ++ [OpRun (copyFileCmd Sample.std "dev_ethsigner"
                         "/stacks/dev/runtime/blockchain/password"
                         "password")])%list)
  /\ FirstTimeSetup Sample.std stubborn p []
     = ((h1 ++ imports [Sample.acct "0xa1"]
            ++ [OpImportAccountToEthsigner "0xb2"])%list,
        Ret (Some "operation failed")).
Proof.
  intros accounts p stubborn h1. split.
  - apply (proj1 (FirstTimeSetup_imports_in_order
                    Sample.std Sample.calm p [] h1 accounts eq_refl eq_refl)).
    intros pre a post _. reflexivity.
  - apply (proj2 (FirstTimeSetup_imports_in_order
                    Sample.std stubborn p [] h1 accounts eq_refl eq_refl)
             [Sample.acct "0xa1"] (Sample.acct "0xb2") [Sample.acct "0xc3"]
             "operation failed" eq_refl).
    + intros pre' a' post' E.
      destruct pre' as [|x [|y pre']]; simpl in E; inversion E. reflexivity.
    + reflexivity.
Defined.

(** The error of the copy of the signer configuration is dropped: the
    sub-steps before the loop return [nil] all the same. *)
Lemma FirstTimeSetup_config_copy_error_discarded std env p h h1 h2 e :
  docker.CreateVolume env (callContext p) (Name (Stack_ p) ++ "_ethsigner") h
  = (h1, Ret None) ->
  hostResult env h1
    (OpMkdirAll (filepath_Join std [RuntimeDir (Stack_ p); "contracts"]) perm0755)
  = None ->
  docker.CopyFileToVolume std env (callContext p)
    (Name (Stack_ p) ++ "_ethsigner_config")
    (filepath_Join std [StackDir (Stack_ p); "runtime"; "config"; "ethsigner.yaml"])
    "firefly.ffsigner"
    (h1 ++ [OpMkdirAll (filepath_Join std [RuntimeDir (Stack_ p); "contracts"])
              perm0755])%list
  = (h2, Ret (Some e)) ->
  FirstTimeSetup_prologue std env p h = (h2, Ret None).
Proof.
  intros H1 H2 H3. unfold FirstTimeSetup_prologue.
  unfold bind at 1. rewrite H1.
  unfold bind at 1. unfold perform at 1. rewrite H2.
  unfold bind at 1. rewrite H3. reflexivity.
Qed.

(** C2, on the code: the stack [dev] with two members, in an environment in
    which the copy of the signer configuration into the volume
    [dev_ethsigner_config] exits with status 1 and everything else succeeds.
    The copy returns an error; [FirstTimeSetup] goes on with both imports and
    the password copy, and returns [nil]. *)
Theorem FirstTimeSetup_swallows_config_copy_error :
  let env := Sample.failing Sample.never (Sample.mounts "dev_ethsigner_config") in
  let p := Sample.provider [Sample.account "0xa1"; Sample.account "0xb2"] in
  let createVolume :=
    OpRun {| Path := "docker";
             Args := ["docker"; "volume"; "create"; "dev_ethsigner"];
             Dir := "." |} in
  let mkdir := OpMkdirAll "/stacks/dev/runtime/contracts" 493 in
  let configCopy :=
    copyFileCmd Sample.std "dev_ethsigner_config"
      "/stacks/dev/runtime/config/ethsigner.yaml" "firefly.ffsigner" in
  let passwordCopy :=
    copyFileCmd Sample.std "dev_ethsigner"
      "/stacks/dev/runtime/blockchain/password" "password" in
  docker.CopyFileToVolume Sample.std env (callContext p) "dev_ethsigner_config"
    "/stacks/dev/runtime/config/ethsigner.yaml" "firefly.ffsigner"
    [createVolume; mkdir]
  = ([createVolume; mkdir; OpRun configCopy],
     Ret (Some (Str.Join (Args configCopy) " " ++ " [1] ")))
  /\ FirstTimeSetup Sample.std env p []
     = ([createVolume; mkdir; OpRun configCopy;
         OpImportAccountToEthsigner "0xa1"; OpImportAccountToEthsigner "0xb2";
         OpRun passwordCopy],
        Ret None).
Proof. split; reflexivity. Qed.

(** The error of the write of the signer configuration is turned into
    [nil], and no member is visited. *)
Lemma WriteConfig_signer_config_error_discarded
    std env StacksDir p options rpcURL h e :
  let initDir := filepath_Join std [StacksDir; Name (Stack_ p); "init"] in
  let mkdir := OpMkdirAll (filepath_Join std [initDir; "blockchain"]) perm0755 in
  let password :=
    OpWriteFile (filepath_Join std [initDir; "blockchain"; "password"])
      "correcthorsebatterystaple" perm0755 in
  let signerConfig :=
    OpWriteSignerConfig (InitOptions_ChainID options) rpcURL
      (filepath_Join std [initDir; "config"; "ethsigner.yaml"]) in
  hostResult env h mkdir = None ->
  hostResult env (h ++ [mkdir])%list password = None ->
  hostResult env (h ++ [mkdir; password])%list signerConfig = Some e ->
  WriteConfig std env StacksDir p options rpcURL h
  = ((h ++ [mkdir; password; signerConfig])%list, Ret None).
Proof.
  intros initDir mkdir password signerConfig H1 H2 H3.
  unfold WriteConfig. fold initDir. fold mkdir. fold password. fold signerConfig.
  unfold bind at 1. unfold perform at 1. rewrite H1.
  unfold bind at 1. unfold perform at 1. rewrite H2.
  unfold bind at 1. unfold perform at 1.
  replace ((h ++ [mkdir]) ++ [password])%list with (h ++ [mkdir; password])%list
    by now rewrite <- app_assoc.
  rewrite H3. unfold ret.
  now rewrite <- app_assoc.
Qed.

(** C1, on the code: the stack [dev] with one member, in an environment in
    which the write of the signer configuration fails and everything else
    succeeds. [WriteConfig] returns [nil], and writes no key file. *)
Theorem WriteConfig_signer_config_failure_returns_nil :
  let env := Sample.failing Sample.isSignerConfigWrite Sample.never in
  let p := Sample.provider [Sample.account "0xa1"] in
  let options := {| InitOptions_ChainID := 2021 |} in
  let mkdir := OpMkdirAll "/stacks/dev/init/blockchain" 493 in
  let password :=
    OpWriteFile "/stacks/dev/init/blockchain/password"
      "correcthorsebatterystaple" 493 in
  let signerConfig :=
    OpWriteSignerConfig 2021 "http://geth:8545"
      "/stacks/dev/init/config/ethsigner.yaml" in
  hostResult env [mkdir; password] signerConfig = Some "operation failed"
  /\ WriteConfig Sample.std env "/stacks" p options "http://geth:8545" []
     = ([mkdir; password; signerConfig], Ret None).
Proof. split; reflexivity. Qed.

(** Every other sub-step of [WriteConfig] returns its error: the two writes
    before the signer configuration, and the two writes of each member. *)
Lemma WriteConfig_members_first_error env p member rest h :
  forall account,
    Account member = EthereumAccount account ->
    let key :=
      OpWriteAccountToDisk (InitDir (Stack_ p)) (ethereum.Address account)
        (ethereum.PrivateKey account) in
    let toml :=
      OpWriteTomlKeyFile (InitDir (Stack_ p)) (ethereum.Address account) in
    WriteConfig_members env p (member :: rest) h
    = match hostResult env h key with
      | Some e => ((h ++ [key])%list, Ret (Some e))
      | None =>
          match hostResult env (h ++ [key])%list toml with
          | Some e => ((h ++ [key; toml])%list, Ret (Some e))
          | None => WriteConfig_members env p rest (h ++ [key; toml])%list
          end
      end.
Proof.
  intros account E key toml. cbn [WriteConfig_members]. rewrite E.
  unfold bind at 1. unfold lift at 1. cbn [assertAccount].
  unfold bind at 1. unfold writeAccountToDisk at 1, perform at 1. fold key.
  destruct (hostResult env h key); [reflexivity|].
  unfold bind at 1. unfold writeTomlKeyFile at 1, perform at 1. fold toml.
  replace ((h ++ [key]) ++ [toml])%list with (h ++ [key; toml])%list
    by now rewrite <- app_assoc.
  destruct (hostResult env (h ++ [key])%list toml); reflexivity.
Qed.

(** *** The command line of the signer *)

Lemma Join_contains sep f : forall flags,
  In f flags -> Str.contains (Str.Join flags sep) f.
Proof.
  induction flags as [|e [|e' rest] IH]; intros H.
  - contradiction.
  - destruct H as [->|[]]. exists "", "". simpl. now rewrite StrFacts.app_nil_r.
  - change (Str.Join (e :: e' :: rest) sep)
      with (e ++ sep ++ Str.Join (e' :: rest) sep).
    destruct H as [->|H].
    + apply StrFacts.contains_start.
    + destruct (IH H) as (pre & post & E). rewrite E.
      exists (e ++ sep ++ pre), post. now rewrite !StrFacts.app_assoc.
Qed.

(** As compiled, [getCommand] returns the empty command line. *)
Lemma getCommand_go_signer std p rpcURL :
  getCommand std useJavaSigner p rpcURL = Ret "".
Proof. reflexivity. Qed.

(** The command line for a URL that parses, with the flags in the order
    [getCommand] appends them. *)
Lemma getCommand_java_flags std p rpcURL u :
  url_Parse std rpcURL = inl u ->
  rpcURL <> "" ->
  let tls := url.Scheme u =? "https" in
  let port := if tls && (url.Port u =? "") then "443" else url.Port u in
  getCommand std true p rpcURL
  = Ret (Str.Join
           (List.app
              ["--logging=DEBUG";
               "--chain-id=" ++ Str.itoa (ChainID (Stack_ p));
               "--downstream-http-host=" ++ url.Hostname u]
           (List.app
              (if tls then ["--downstream-http-tls-enabled"] else [])
           (List.app
              (if negb (url.Path u =? "") && negb (url.Path u =? "/")
               then ["--downstream-http-path=" ++ url.Path u] else [])
              ["--downstream-http-port=" ++ port;
               "multikey-signer"; "--directory=/data/keystore"]))) " ").
Proof.
  intros Hu Hne tls port. unfold getCommand. cbn [negb]. rewrite Hu.
  destruct (String.eqb_spec rpcURL ""); [contradiction|].
  subst tls port.
  destruct (url.Scheme u =? "https"), (url.Port u =? ""),
    (negb (url.Path u =? "") && negb (url.Path u =? "/"))%bool; reflexivity.
Qed.

(** C7. With the Java signer compiled in: the command line for
    [https://rpc.example:9999/v1] has the TLS flag, the host [rpc.example],
    the port [9999] and the path flag for [/v1]; the command line for
    [http://rpc.local] has neither TLS flag nor path flag and an empty port,
    not [80]; a URL without port gets the port [443] exactly when its scheme
    is [https]; an empty URL, or one that does not parse, makes [getCommand]
    panic. *)
Theorem getCommand_java_signer std p :
  url_Parse std "https://rpc.example:9999/v1"
  = inl {| url.Scheme := "https"; url.Hostname := "rpc.example";
           url.Port := "9999"; url.Path := "/v1" |} ->
  url_Parse std "http://rpc.local"
  = inl {| url.Scheme := "http"; url.Hostname := "rpc.local";
           url.Port := ""; url.Path := "" |} ->
  let chain := "--chain-id=" ++ Str.itoa (ChainID (Stack_ p)) in
  (exists flags,
     getCommand std true p "https://rpc.example:9999/v1" = Ret (Str.Join flags " ")
     /\ flags = ["--logging=DEBUG"; chain; "--downstream-http-host=rpc.example";
                 "--downstream-http-tls-enabled"; "--downstream-http-path=/v1";
                 "--downstream-http-port=9999"; "multikey-signer";
                 "--directory=/data/keystore"]
     /\ Str.contains (Str.Join flags " ") "--downstream-http-tls-enabled"
     /\ Str.contains (Str.Join flags " ") "--downstream-http-host=rpc.example"
     /\ Str.contains (Str.Join flags " ") "--downstream-http-port=9999"
     /\ Str.contains (Str.Join flags " ") "--downstream-http-path=/v1")
  /\ (exists flags,
       getCommand std true p "http://rpc.local" = Ret (Str.Join flags " ")
       /\ flags = ["--logging=DEBUG"; chain; "--downstream-http-host=rpc.local";
                   "--downstream-http-port="; "multikey-signer";
                   "--directory=/data/keystore"]
       /\ ~ In "--downstream-http-port=80" flags
       /\ ~ In "--downstream-http-tls-enabled" flags
       /\ forall f, In f flags -> prefix "--downstream-http-path" f = false)
  /\ (forall rpcURL u,
       url_Parse std rpcURL = inl u -> rpcURL <> "" -> url.Port u = "" ->
       exists flags,
         getCommand std true p rpcURL = Ret (Str.Join flags " ")
         /\ In ("--downstream-http-port="
                  ++ (if url.Scheme u =? "https" then "443" else "")) flags)
  /\ (forall rpcURL,
       rpcURL = "" \/ (exists e, url_Parse std rpcURL = inr e) ->
       exists msg, getCommand std true p rpcURL = Panic msg).
Proof.
  intros H1 H2 chain. split; [|split; [|split]].
  - eexists. split; [|split].
    + rewrite (getCommand_java_flags std p _ _ H1) by discriminate. reflexivity.
    + reflexivity.
    + repeat split; apply Join_contains; simpl; auto 10.
  - eexists. split; [|split].
    + rewrite (getCommand_java_flags std p _ _ H2) by discriminate. reflexivity.
    + reflexivity.
    + split; [|split].
      * simpl. intros [E|[E|[E|[E|[E|[E|[]]]]]]]; discriminate.
      * simpl. intros [E|[E|[E|[E|[E|[E|[]]]]]]]; discriminate.
      * simpl. intros f [<-|[<-|[<-|[<-|[<-|[<-|[]]]]]]]; reflexivity.
  - intros rpcURL u Hu Hne Hp. eexists. split.
    + rewrite (getCommand_java_flags std p _ _ Hu Hne). reflexivity.
    + rewrite Hp. rewrite String.eqb_refl, andb_true_r.
      apply in_or_app. right. apply in_or_app. right. apply in_or_app. right.
      left. reflexivity.
  - intros rpcURL [->|[e He]]; unfold getCommand; cbn [negb].
    + destruct (url_Parse std ""); eexists; reflexivity.
    + rewrite He. eexists; reflexivity.
Qed.

Lemma getCommand_java_signer_witness :
  let p := Sample.provider [] in
  getCommand Sample.std true p "https://rpc.example:9999/v1"
  = Ret ("--logging=DEBUG --chain-id=2021 --downstream-http-host=rpc.example "
         ++ "--downstream-http-tls-enabled --downstream-http-path=/v1 "
         ++ "--downstream-http-port=9999 multikey-signer --directory=/data/keystore")
  /\ getCommand Sample.std true p "http://rpc.local"
     = Ret ("--logging=DEBUG --chain-id=2021 --downstream-http-host=rpc.local "
            ++ "--downstream-http-port= multikey-signer --directory=/data/keystore")
  /\ (exists msg, getCommand Sample.std true p "" = Panic msg)
  /\ (exists msg, getCommand Sample.std true p "::" = Panic msg).
Proof.
  intros p.
  destruct (getCommand_java_signer Sample.std p eq_refl eq_refl)
    as ((f1 & E1 & -> & _) & (f2 & E2 & -> & _) & _ & Hbad).
  split; [exact E1 | split; [exact E2 | split]].
  - apply Hbad. left. reflexivity.
  - apply Hbad. right. eexists. reflexivity.
Defined.

(** *** The service definition *)

Lemma GetDockerServiceDefinition_members_ethereum accounts :
  forall len i addresses,
    exists s,
      GetDockerServiceDefinition_members len i (ethereumMembers accounts) addresses
      = Ret s.
Proof.
  induction accounts as [|a accounts IH]; intros len i addresses.
  - now exists addresses.
  - cbn [ethereumMembers map GetDockerServiceDefinition_members Account
           assertAccount andThen].
    apply IH.
Qed.

Lemma assertAccount_foreign m :
  foreign m -> exists msg, assertAccount (Account m) = Panic msg.
Proof.
  unfold foreign. destruct (Account m) as [|a|t]; intros H.
  - eexists; reflexivity.
  - now elim (H a).
  - eexists; reflexivity.
Qed.

Lemma GetDockerServiceDefinition_members_foreign members :
  (exists m, In m members /\ foreign m) ->
  forall len i addresses,
    exists msg,
      GetDockerServiceDefinition_members len i members addresses = Panic msg.
Proof.
  induction members as [|m0 members IH]; intros (m & Hin & Hf) len i addresses.
  - contradiction.
  - cbn [GetDockerServiceDefinition_members].
    destruct (assertAccount (Account m0)) as [a|msg|] eqn:E.
    + cbn [andThen]. apply IH. exists m. split; [|exact Hf].
      destruct Hin as [->|Hin]; [|exact Hin].
      destruct (assertAccount_foreign _ Hf) as [msg Hm]. congruence.
    + now exists msg.
    + destruct (Account m0); discriminate.
Qed.

(** C8, as the code has it. For every stack whose members hold Ethereum
    accounts, and a command line [getCommand] returns: the service
    definition of the signer has the container name [<stack>_ethsigner], maps
    the internal port 8545 to the exposed blockchain port of the stack, and
    declares exactly the two volumes [ethsigner] and [ethsigner_config],
    which the service mounts; the names carry no stack prefix. *)
Theorem GetDockerServiceDefinition_signer
    std (LoggingConfig : Type) (StandardLogOptions : LoggingConfig)
    useJava p rpcURL accounts command :
  Members (Stack_ p) = ethereumMembers accounts ->
  getCommand std useJava p rpcURL = Ret command ->
  exists sd,
    GetDockerServiceDefinition std StandardLogOptions useJava p rpcURL = Ret sd
    /\ docker.ContainerName (docker.Service_ sd) = Name (Stack_ p) ++ "_ethsigner"
    /\ docker.Ports (docker.Service_ sd)
       = [Str.itoa (ExposedBlockchainPort (Stack_ p)) ++ ":8545"]
    /\ docker.VolumeNames sd = ["ethsigner"; "ethsigner_config"]
    /\ docker.Volumes (docker.Service_ sd)
       = ["ethsigner:/data"; "ethsigner_config:/etc/firefly"].
Proof.
  intros HM HC. unfold GetDockerServiceDefinition. rewrite HM.
  destruct (GetDockerServiceDefinition_members_ethereum accounts
              (Z.of_nat (length (ethereumMembers accounts))) 0 "") as [s ->].
  cbn [andThen]. rewrite HC. cbn [andThen].
  eexists. split; [reflexivity|]. repeat split.
Qed.

Lemma GetDockerServiceDefinition_signer_witness :
  let p := Sample.provider [Sample.account "0xa1"; Sample.account "0xb2"] in
  exists sd,
    GetDockerServiceDefinition Sample.std tt useJavaSigner p "http://geth:8545"
    = Ret sd
    /\ docker.ContainerName (docker.Service_ sd) = "dev_ethsigner"
    /\ docker.Ports (docker.Service_ sd) = ["5100:8545"]
    /\ docker.VolumeNames sd = ["ethsigner"; "ethsigner_config"]
    /\ docker.Volumes (docker.Service_ sd)
       = ["ethsigner:/data"; "ethsigner_config:/etc/firefly"].
Proof.
  intros p.
  apply (GetDockerServiceDefinition_signer Sample.std unit tt useJavaSigner p
           "http://geth:8545" [Sample.acct "0xa1"; Sample.acct "0xb2"] "").
  - reflexivity.
  - reflexivity.
Defined.

(** The stack [dev]: the declared volumes are [ethsigner] and
    [ethsigner_config], not [dev_ethsigner] and [dev_ethsigner_config]. *)
Lemma GetDockerServiceDefinition_volume_names_unprefixed :
  let p := Sample.provider [Sample.account "0xa1"] in
  exists sd,
    GetDockerServiceDefinition Sample.std tt useJavaSigner p "http://geth:8545"
    = Ret sd
    /\ Name (Stack_ p) = "dev"
    /\ docker.VolumeNames sd = ["ethsigner"; "ethsigner_config"]
    /\ docker.VolumeNames sd
       <> [Name (Stack_ p) ++ "_ethsigner"; Name (Stack_ p) ++ "_ethsigner_config"].
Proof.
  intros p. eexists. split; [reflexivity|]. split; [reflexivity|].
  split; [reflexivity|]. simpl. discriminate.
Qed.

(** *** The type assertion on a member's account *)

Section Downcast.

Variable env : Env.
Variable p : EthSignerProvider.

(** A loop that has run through [pre] without error goes on with the rest. *)
Lemma WriteConfig_members_app pre : forall rest h h',
  WriteConfig_members env p pre h = (h', Ret None) ->
  WriteConfig_members env p (pre ++ rest)%list h
  = WriteConfig_members env p rest h'.
Proof.
  induction pre as [|m pre IH]; intros rest h h' H.
  - simpl in H. unfold ret in H. now inversion H.
  - cbn [app WriteConfig_members] in *.
    unfold bind at 1 in H. unfold bind at 1. unfold lift at 1 in H. unfold lift at 1.
    destruct (assertAccount (Account m)) as [a|msg|]; try discriminate.
    unfold bind at 1 in H. unfold bind at 1.
    destruct (writeAccountToDisk env p _ _ _ h) as [h1 [[e|]| |]]; try discriminate.
    unfold bind at 1 in H. unfold bind at 1.
    destruct (writeTomlKeyFile env p _ _ h1) as [h2 [[e|]| |]]; try discriminate.
    now apply IH.
Qed.

Lemma FirstTimeSetup_members_app pre : forall rest h h',
  FirstTimeSetup_members env p pre h = (h', Ret None) ->
  FirstTimeSetup_members env p (pre ++ rest)%list h
  = FirstTimeSetup_members env p rest h'.
Proof.
  induction pre as [|m pre IH]; intros rest h h' H.
  - simpl in H. unfold ret in H. now inversion H.
  - cbn [app FirstTimeSetup_members] in *.
    unfold bind at 1 in H. unfold bind at 1. unfold lift at 1 in H. unfold lift at 1.
    destruct (assertAccount (Account m)) as [a|msg|]; try discriminate.
    unfold bind at 1 in H. unfold bind at 1.
    destruct (importAccountToEthsigner env p _ h) as [h1 [[e|]| |]]; try discriminate.
    now apply IH.
Qed.

End Downcast.

(** C10, as the code has it. A stack has a member [m] whose account is not
    an Ethereum account. [GetDockerServiceDefinition] panics. [WriteConfig]
    panics when the directory creation, the password write and the
    signer-configuration write succeed and its loop passes the members before
    [m] without error; [FirstTimeSetup] panics when the sub-steps before its
    loop return and the imports of the members before [m] succeed. The panic of
    both is the one of the type assertion on [m]. *)
Theorem foreign_account_panics
    std env StacksDir (LoggingConfig : Type) (StandardLogOptions : LoggingConfig)
    useJava p pre m post :
  Members (Stack_ p) = (pre ++ m :: post)%list ->
  foreign m ->
  (forall rpcURL,
     exists msg,
       GetDockerServiceDefinition std StandardLogOptions useJava p rpcURL
       = Panic msg)
  /\ (forall options rpcURL h h',
       let initDir := filepath_Join std [StacksDir; Name (Stack_ p); "init"] in
       let mkdir := OpMkdirAll (filepath_Join std [initDir; "blockchain"]) perm0755 in
       let password :=
         OpWriteFile (filepath_Join std [initDir; "blockchain"; "password"])
           "correcthorsebatterystaple" perm0755 in
       let signerConfig :=
         OpWriteSignerConfig (InitOptions_ChainID options) rpcURL
           (filepath_Join std [initDir; "config"; "ethsigner.yaml"]) in
       hostResult env h mkdir = None ->
       hostResult env (h ++ [mkdir])%list password = None ->
       hostResult env (h ++ [mkdir; password])%list signerConfig = None ->
       WriteConfig_members env p pre (h ++ [mkdir; password; signerConfig])%list
       = (h', Ret None) ->
       exists msg,
         assertAccount (Account m) = Panic msg
         /\ WriteConfig std env StacksDir p options rpcURL h = (h', Panic msg))
  /\ (forall h h1 h2,
       FirstTimeSetup_prologue std env p h = (h1, Ret None) ->
       FirstTimeSetup_members env p pre h1 = (h2, Ret None) ->
       exists msg,
         assertAccount (Account m) = Panic msg
         /\ FirstTimeSetup std env p h = (h2, Panic msg)).
Proof.
  intros HM Hf. destruct (assertAccount_foreign m Hf) as [msg Hmsg].
  split; [|split].
  - intros rpcURL. unfold GetDockerServiceDefinition.
    destruct (GetDockerServiceDefinition_members_foreign (Members (Stack_ p)))
      with (len := Z.of_nat (length (Members (Stack_ p)))) (i := 0)
           (addresses := "") as [msg' ->].
    + exists m. split; [|exact Hf]. rewrite HM. apply in_elt.
    + now exists msg'.
  - intros options rpcURL h h' initDir mkdir password signerConfig H1 H2 H3 H4.
    exists msg. split; [exact Hmsg|].
    unfold WriteConfig. fold initDir. fold mkdir. fold password. fold signerConfig.
    unfold bind at 1. unfold perform at 1. rewrite H1.
    unfold bind at 1. unfold perform at 1. rewrite H2.
    unfold bind at 1. unfold perform at 1.
    replace ((h ++ [mkdir]) ++ [password])%list with (h ++ [mkdir; password])%list
      by now rewrite <- app_assoc.
    rewrite H3.
    replace ((h ++ [mkdir; password]) ++ [signerConfig])%list
      with (h ++ [mkdir; password; signerConfig])%list
      by now rewrite <- app_assoc.
    rewrite HM, (WriteConfig_members_app env p pre _ _ _ H4).
    cbn [WriteConfig_members]. unfold bind at 1. unfold lift at 1.
    now rewrite Hmsg.
  - intros h h1 h2 H1 H2. exists msg. split; [exact Hmsg|].
    rewrite FirstTimeSetup_unfold. unfold bind at 1. rewrite H1.
    unfold bind at 1.
    rewrite HM, (FirstTimeSetup_members_app env p pre _ _ _ H2).
    cbn [FirstTimeSetup_members]. unfold bind at 1. unfold lift at 1.
    now rewrite Hmsg.
Qed.

Lemma foreign_account_panics_witness :
  let p :=
    Sample.provider [Sample.account "0xa1"; Sample.fabricMember; Sample.account "0xc3"] in
  let options := {| InitOptions_ChainID := 2021 |} in
  let msg := "interface conversion: interface {} is *fabric.Account, not *ethereum.Account" in
  (exists msg',
     GetDockerServiceDefinition Sample.std tt useJavaSigner p "http://geth:8545"
     = Panic msg')
  /\ (exists h',
       WriteConfig Sample.std Sample.calm "/stacks" p options "http://geth:8545" []
       = (h', Panic msg))
  /\ (exists h2, FirstTimeSetup Sample.std Sample.calm p [] = (h2, Panic msg)).
Proof.
  intros p options msg.
  assert (Hf : foreign Sample.fabricMember) by (intros a; discriminate).
  destruct (foreign_account_panics Sample.std Sample.calm "/stacks" unit tt
              useJavaSigner p [Sample.account "0xa1"] Sample.fabricMember
              [Sample.account "0xc3"] eq_refl Hf) as (HG & HW & HF).
  split; [apply HG | split].
  - eexists.
    destruct (HW options "http://geth:8545" [] _ eq_refl eq_refl eq_refl eq_refl)
      as (msg' & Hm & E).
    inversion Hm. subst msg'. exact E.
  - eexists.
    destruct (HF [] _ _ eq_refl eq_refl) as (msg' & Hm & E).
    inversion Hm. subst msg'. exact E.
Defined.

(** The stack [dev] whose only member holds an account of another type, in
    an environment in which the directory cannot be created: [WriteConfig]
    returns the error of [os.MkdirAll]; it does not panic. *)
Lemma WriteConfig_returns_error_before_type_assertion :
  let env := Sample.failing Sample.isMkdirAll Sample.never in
  let p := Sample.provider [Sample.fabricMember] in
  let result :=
    WriteConfig Sample.std env "/stacks" p {| InitOptions_ChainID := 2021 |}
      "http://geth:8545" [] in
  (exists m, In m (Members (Stack_ p)) /\ foreign m)
  /\ result = ([OpMkdirAll "/stacks/dev/init/blockchain" 493],
               Ret (Some "operation failed"))
  /\ ~ (exists msg, snd result = Panic msg).
Proof.
  intros env p result. split; [|split].
  - exists Sample.fabricMember. split; [now left | intros a; discriminate].
  - reflexivity.
  - intros [msg H]. discriminate.
Qed.

End EthsignerFacts.

(** ** More on the process runner *)

Module RunnerFacts.
Import docker Steps.

Lemma hasByte_app c a b :
  Str.hasByte c (a ++ b) = Str.hasByte c a || Str.hasByte c b.
Proof.
  induction a as [|x a IH]; simpl; [reflexivity|].
  now rewrite IH, orb_assoc.
Qed.

Lemma readLines_split data : forall cur,
  Str.hasByte newline cur = false ->
  exists rest,
    Str.cat (readLines cur data) ++ rest = cur ++ data
    /\ Str.hasByte newline rest = false
    /\ Forall fullLine (readLines cur data).
Proof.
  induction data as [|c data IH]; intros cur Hcur.
  - exists cur. simpl. now rewrite StrFacts.app_nil_r.
  - cbn [readLines]. destruct (Ascii.eqb_spec c newline) as [->|Hc].
    + destruct (IH "" eq_refl) as (rest & E & Hr & Hl).
      exists rest. split; [|split].
      * cbn [Str.cat]. rewrite StrFacts.app_assoc, E.
        now rewrite StrFacts.app_assoc.
      * exact Hr.
      * constructor; [now exists cur | exact Hl].
    + destruct (IH (cur ++ String c "")) as (rest & E & Hr & Hl).
      * rewrite hasByte_app, Hcur. simpl.
        destruct (Ascii.eqb_spec c newline); [contradiction | reflexivity].
      * exists rest. split; [|split]; auto.
        now rewrite E, StrFacts.app_assoc.
Qed.

Lemma readLines_terminated data : forall cur,
  Str.cat (readLines cur (data ++ String newline ""))
  = cur ++ data ++ String newline "".
Proof.
  induction data as [|c data IH]; intros cur.
  - simpl. now rewrite StrFacts.app_nil_r.
  - change (String c data ++ String newline "")
      with (String c (data ++ String newline "")).
    cbn [readLines]. destruct (Ascii.eqb_spec c newline) as [->|Hc].
    + cbn [Str.cat]. rewrite IH. now rewrite StrFacts.app_assoc.
    + rewrite IH. now rewrite StrFacts.app_assoc.
Qed.

(** X1. What a stream drainer sends: the lines it sends are full lines, and,
    put end to end, they are the data of the pipe up to its last newline; the
    rest, which has no newline, is never sent. Data that ends with a newline
    is sent whole. *)
Theorem readPipe_sends_full_lines (p : Pipe) :
  (exists rest,
     Str.cat (toSend (readPipe p)) ++ rest = written p
     /\ Str.hasByte newline rest = false
     /\ Forall fullLine (toSend (readPipe p)))
  /\ (forall body,
        written p = body ++ String newline "" ->
        Str.cat (toSend (readPipe p)) = written p).
Proof.
  unfold readPipe. cbn [toSend]. split.
  - apply (readLines_split (written p) "" eq_refl).
  - intros body ->. apply (readLines_terminated body "").
Qed.

Lemma readPipe_sends_full_lines_witness :
  Str.cat (toSend (readPipe {| written := Sample.line "a" ++ Sample.line "b";
                               readErr := None |}))
  = Sample.line "a" ++ Sample.line "b".
Proof.
  apply (proj2 (readPipe_sends_full_lines
                  {| written := Sample.line "a" ++ Sample.line "b";
                     readErr := None |})
           (Sample.line "a" ++ "b")).
  reflexivity.
Defined.

Lemma startsWith_cons {A} (x : A) l pre :
  startsWith l pre -> startsWith (x :: l) (x :: pre).
Proof. intros [rest ->]. now exists rest. Qed.

Lemma startsWith_nil {A} (l : list A) : startsWith l [].
Proof. now exists l. Qed.

(** The loop from any state: when it is left by [break], the buffer has
    grown by lines of the two drainers, each drainer's in its own order, and
    the channel found closed has handed over all its lines. *)
Ltac capture_step Hb :=
  repeat split;
  try assumption;
  try apply startsWith_nil;
  try (now apply startsWith_cons);
  try (now constructor);
  try (rewrite Hb; cbn [Str.cat];
       now rewrite ?StrFacts.app_assoc, ?StrFacts.app_nil_r);
  try (cbn [Str.cat]; now rewrite StrFacts.app_nil_r).

Lemma outputCapture_broke logCmd verbose sched :
  forall o e buf0 buf,
    outputCapture logCmd verbose sched (Draining o e) buf0 = Broke buf ->
    exists outs errs pieces,
      startsWith (toSend o) outs
      /\ startsWith (toSend e) errs
      /\ Merge outs errs pieces
      /\ buf = buf0 ++ Str.cat pieces
      /\ ((errs = toSend e /\ failure e = None)
          \/ (logCmd || verbose = true /\ outs = toSend o /\ failure o = None)).
Proof.
  induction sched as [|p sched IH]; intros o e buf0 buf H; [discriminate|].
  cbn [outputCapture] in H.
  destruct p as [[|]|[|]]; cbn [select] in H.
  - (* a receive on the standard-output channel *)
    unfold recvLine in H.
    destruct o as [[|l rest] [f|]]; cbn [toSend failure] in *; try discriminate.
    + destruct (logCmd || verbose) eqn:F.
      * cbn [negb] in H. inversion H; subst buf.
        exists [], [], []. capture_step H.
      * destruct (IH _ _ _ _ H) as (outs & errs & pieces & Ho & He & Hm & Hb & Hc).
        exists outs, errs, pieces. capture_step Hb.
    + assert (H' : outputCapture logCmd verbose sched
                     (Draining {| toSend := rest; failure := Some f |} e)
                     (buf0 ++ l) = Broke buf)
        by (destruct (logCmd || verbose); exact H).
      destruct (IH _ _ _ _ H') as (outs & errs & pieces & Ho & He & Hm & Hb & Hc).
      cbn [toSend failure] in *.
      exists (l :: outs), errs, (l :: pieces). capture_step Hb.
      all: destruct Hc as [Hc|(Hf & Hc & Hn)]; [left; exact Hc | discriminate].
    + assert (H' : outputCapture logCmd verbose sched
                     (Draining {| toSend := rest; failure := None |} e)
                     (buf0 ++ l) = Broke buf)
        by (destruct (logCmd || verbose); exact H).
      destruct (IH _ _ _ _ H') as (outs & errs & pieces & Ho & He & Hm & Hb & Hc).
      cbn [toSend failure] in *.
      exists (l :: outs), errs, (l :: pieces). capture_step Hb.
      all: destruct Hc as [Hc|(Hf & Hc & Hn)]; [left; exact Hc|].
      right. repeat split; auto. now rewrite Hc.
  - (* a receive on the standard-error channel *)
    unfold recvLine in H.
    destruct e as [[|l rest] [f|]]; cbn [toSend failure] in *; try discriminate.
    + cbn [negb] in H. inversion H; subst buf.
      exists [], [], []. capture_step H.
    + cbn [negb] in H.
      destruct (IH _ _ _ _ H) as (outs & errs & pieces & Ho & He & Hm & Hb & Hc).
      cbn [toSend failure] in *.
      exists outs, (l :: errs), (l :: pieces). capture_step Hb.
      all: destruct Hc as [(Hc & Hn)|Hc]; [discriminate | right; exact Hc].
    + cbn [negb] in H.
      destruct (IH _ _ _ _ H) as (outs & errs & pieces & Ho & He & Hm & Hb & Hc).
      cbn [toSend failure] in *.
      exists outs, (l :: errs), (l :: pieces). capture_step Hb.
      all: destruct Hc as [(Hc & Hn)|Hc]; [|right; exact Hc].
      left. split; auto. now rewrite Hc.
  - destruct (recvErr o); discriminate.
  - destruct (recvErr e); discriminate.
Qed.

Lemma runCommand_success env ctx cmd h output :
  snd (runCommand env ctx cmd h) = Ret (output, None) ->
  let x := process env h cmd in
  outputCapture (isLogCmd ctx) (VerbosityFromContext ctx) (picks x)
    (pipeCommand x) "" = Broke output
  /\ exitCode x = 0.
Proof.
  intros H x. rewrite DockerFacts.runCommand_cases in H. cbn [snd] in H. fold x in H.
  destruct (outputCapture _ _ _ _ _) as [buf|e|]; try discriminate.
  destruct (Z.eqb_spec (exitCode x) 0); [|discriminate].
  inversion H. now subst.
Qed.

Lemma pipeCommand_Draining x o e :
  pipeCommand x = Draining o e ->
  o = readPipe (stdoutPipe x) /\ e = readPipe (stderrPipe x).
Proof.
  unfold pipeCommand.
  destruct (stdoutPipeErr x); [discriminate|].
  destruct (stderrPipeErr x); [discriminate|].
  intros H. now inversion H.
Qed.

Lemma outputCapture_PipeFailed logCmd verbose sched e buf0 buf :
  outputCapture logCmd verbose sched (PipeFailed e) buf0 <> Broke buf.
Proof.
  destruct sched as [|[s|s] sched]; simpl; discriminate.
Qed.

(** X2. The output of a successful run is made of lines the process wrote and
    of nothing else: it is some first lines of the standard output and some
    first lines of the standard error, shuffled together, each stream in the
    order it was written. *)
Theorem runCommand_output_is_merge env ctx cmd h output :
  snd (runCommand env ctx cmd h) = Ret (output, None) ->
  let x := process env h cmd in
  exists outs errs pieces,
    startsWith (toSend (readPipe (stdoutPipe x))) outs
    /\ startsWith (toSend (readPipe (stderrPipe x))) errs
    /\ Merge outs errs pieces
    /\ output = Str.cat pieces.
Proof.
  intros H x. destruct (runCommand_success _ _ _ _ _ H) as [Hc _]. fold x in Hc.
  destruct (pipeCommand x) as [e|o e] eqn:Hp.
  - now elim (outputCapture_PipeFailed _ _ _ _ _ _ Hc).
  - destruct (pipeCommand_Draining _ _ _ Hp) as [-> ->].
    destruct (outputCapture_broke _ _ _ _ _ _ _ Hc)
      as (outs & errs & pieces & Ho & He & Hm & Hb & _).
    now exists outs, errs, pieces.
Qed.

Lemma runCommand_output_is_merge_witness :
  let x :=
    Sample.proc (Sample.line "a" ++ Sample.line "c") (Sample.line "b")
      [RecvLine Stdout; RecvLine Stderr; RecvLine Stderr] 0 in
  exists outs errs pieces,
    startsWith [Sample.line "a"; Sample.line "c"] outs
    /\ startsWith [Sample.line "b"] errs
    /\ Merge outs errs pieces
    /\ Sample.line "a" ++ Sample.line "b" = Str.cat pieces.
Proof.
  intros x.
  apply (runCommand_output_is_merge (Sample.always x) Sample.quiet
           Sample.dockerPs [] (Sample.line "a" ++ Sample.line "b")).
  reflexivity.
Defined.

(** X3. When the loop is left, one channel has been found closed, and that
    stream is whole in the output: with verbosity and log-command off it is
    always the standard error, so no line of the standard error is ever
    missing from the output of a successful run. *)
Theorem runCommand_quiet_keeps_stderr env ctx cmd h output :
  isLogCmd ctx || VerbosityFromContext ctx = false ->
  snd (runCommand env ctx cmd h) = Ret (output, None) ->
  let x := process env h cmd in
  readErr (stderrPipe x) = None
  /\ exists outs pieces,
       startsWith (toSend (readPipe (stdoutPipe x))) outs
       /\ Merge outs (toSend (readPipe (stderrPipe x))) pieces
       /\ output = Str.cat pieces.
Proof.
  intros Hq H x. destruct (runCommand_success _ _ _ _ _ H) as [Hc _]. fold x in Hc.
  destruct (pipeCommand x) as [e|o e] eqn:Hp.
  - now elim (outputCapture_PipeFailed _ _ _ _ _ _ Hc).
  - destruct (pipeCommand_Draining _ _ _ Hp) as [-> ->].
    destruct (outputCapture_broke _ _ _ _ _ _ _ Hc)
      as (outs & errs & pieces & Ho & He & Hm & Hb & Hd).
    destruct Hd as [[-> Hn]|[Hf _]]; [|congruence].
    split; [exact Hn|]. now exists outs, pieces.
Qed.

Lemma runCommand_quiet_keeps_stderr_witness :
  let x :=
    Sample.proc (Sample.line "a" ++ Sample.line "c") (Sample.line "b")
      [RecvLine Stdout; RecvLine Stderr; RecvLine Stderr] 0 in
  readErr (stderrPipe x) = None
  /\ exists outs pieces,
       startsWith [Sample.line "a"; Sample.line "c"] outs
       /\ Merge outs [Sample.line "b"] pieces
       /\ Sample.line "a" ++ Sample.line "b" = Str.cat pieces.
Proof.
  intros x.
  apply (runCommand_quiet_keeps_stderr (Sample.always x) Sample.quiet
           Sample.dockerPs [] (Sample.line "a" ++ Sample.line "b")).
  - reflexivity.
  - reflexivity.
Defined.

Lemma cat_app a b : Str.cat (a ++ b)%list = Str.cat a ++ Str.cat b.
Proof.
  induction a as [|x a IH]; simpl; [reflexivity|].
  now rewrite IH, StrFacts.app_assoc.
Qed.

Lemma outputCapture_drain_stderr logCmd verbose o errs : forall buf0,
  outputCapture logCmd verbose (repeat (RecvLine Stderr) (S (length errs)))
    (Draining o {| toSend := errs; failure := None |}) buf0
  = Broke (buf0 ++ Str.cat errs).
Proof.
  induction errs as [|l errs IH]; intros buf0.
  - simpl. now rewrite StrFacts.app_nil_r.
  - change (repeat (RecvLine Stderr) (S (length (l :: errs))))
      with (RecvLine Stderr :: repeat (RecvLine Stderr) (S (length errs))).
    cbn [outputCapture select recvLine toSend failure negb].
    rewrite IH. cbn [Str.cat]. now rewrite StrFacts.app_assoc.
Qed.

Lemma outputCapture_drain logCmd verbose outs f errs : forall buf0,
  outputCapture logCmd verbose
    (repeat (RecvLine Stdout) (length outs)
       ++ repeat (RecvLine Stderr) (S (length errs)))%list
    (Draining {| toSend := outs; failure := f |}
              {| toSend := errs; failure := None |}) buf0
  = Broke (buf0 ++ Str.cat outs ++ Str.cat errs).
Proof.
  induction outs as [|l outs IH]; intros buf0.
  - cbn [length repeat app]. apply outputCapture_drain_stderr.
  - cbn [length repeat app outputCapture select recvLine toSend failure negb].
    assert (E : outputCapture logCmd verbose
                  (repeat (RecvLine Stdout) (length outs)
                     ++ repeat (RecvLine Stderr) (S (length errs)))%list
                  (Draining {| toSend := outs; failure := f |}
                            {| toSend := errs; failure := None |}) (buf0 ++ l)
                = Broke (buf0 ++ Str.cat (l :: outs) ++ Str.cat errs)).
    { rewrite IH. cbn [Str.cat]. now rewrite !StrFacts.app_assoc. }
    destruct (logCmd || verbose); exact E.
Qed.

(** X4. A run that loses nothing: when both pipes open, the standard error
    ends with end of file, and the [select] receives every line of the
    standard output and then every line of the standard error before it
    finds the standard-error channel closed, a command that exits 0 returns
    all the lines of both streams, whatever the verbosity and log-command
    flags. *)
Theorem runCommand_drained env ctx cmd h :
  let x := process env h cmd in
  let outs := toSend (readPipe (stdoutPipe x)) in
  let errs := toSend (readPipe (stderrPipe x)) in
  stdoutPipeErr x = None ->
  stderrPipeErr x = None ->
  readErr (stderrPipe x) = None ->
  picks x = (repeat (RecvLine Stdout) (length outs)
               ++ repeat (RecvLine Stderr) (S (length errs)))%list ->
  exitCode x = 0 ->
  runCommand env ctx cmd h
  = ((h ++ [OpRun cmd])%list, Ret (Str.cat outs ++ Str.cat errs, None)).
Proof.
  intros x outs errs H1 H2 H3 H4 H5. subst outs errs.
  rewrite DockerFacts.runCommand_cases. fold x.
  unfold pipeCommand. rewrite H1, H2, H4, H5.
  unfold readPipe. cbn [toSend]. rewrite H3.
  now rewrite outputCapture_drain.
Qed.

Lemma runCommand_drained_witness :
  let x :=
    Sample.proc (Sample.line "a" ++ Sample.line "c") (Sample.line "b")
      [RecvLine Stdout; RecvLine Stdout; RecvLine Stderr; RecvLine Stderr] 0 in
  runCommand (Sample.always x) Sample.loud Sample.dockerPs []
  = ([OpRun Sample.dockerPs],
     Ret (Sample.line "a" ++ Sample.line "c" ++ Sample.line "b", None)).
Proof.
  intros x.
  apply (runCommand_drained (Sample.always x) Sample.loud Sample.dockerPs []);
    reflexivity.
Defined.

(** An error taken from [errChan] is one a pipe produced. *)
Lemma outputCapture_failed logCmd verbose sched : forall c buf0 e,
  outputCapture logCmd verbose sched c buf0 = Failed e ->
  match c with
  | PipeFailed e0 => e = e0
  | Draining o er => failure o = Some e \/ failure er = Some e
  end.
Proof.
  induction sched as [|p sched IH]; intros c buf0 e H; [discriminate|].
  cbn [outputCapture] in H.
  destruct c as [e0|o er]; destruct p as [[|]|[|]]; cbn [select] in H;
    try discriminate.
  - now inversion H.
  - now inversion H.
  - unfold recvLine in H.
    destruct o as [[|l rest] [f|]]; cbn [toSend failure] in *; try discriminate.
    + destruct (logCmd || verbose); [discriminate|]. apply (IH _ _ _ H).
    + assert (H' : outputCapture logCmd verbose sched
                     (Draining {| toSend := rest; failure := Some f |} er)
                     (buf0 ++ l) = Failed e)
        by (destruct (logCmd || verbose); exact H).
      apply (IH _ _ _ H').
    + assert (H' : outputCapture logCmd verbose sched
                     (Draining {| toSend := rest; failure := None |} er)
                     (buf0 ++ l) = Failed e)
        by (destruct (logCmd || verbose); exact H).
      apply (IH _ _ _ H').
  - unfold recvLine in H.
    destruct er as [[|l rest] [f|]]; cbn [toSend failure negb] in *;
      try discriminate; apply (IH _ _ _ H).
  - unfold recvErr in H.
    destruct o as [[|l rest] [f|]]; cbn [toSend failure] in *; try discriminate.
    inversion H. now left.
  - unfold recvErr in H.
    destruct er as [[|l rest] [f|]]; cbn [toSend failure] in *; try discriminate.
    inversion H. now right.
Qed.

(** X5. An error never comes with output: when [runCommand] returns an
    error, the string it returns is empty, and the error is either the
    message built from a status other than 0, or an error that opening or
    reading one of the two pipes produced. *)
Theorem runCommand_error_without_output env ctx cmd h output e :
  snd (runCommand env ctx cmd h) = Ret (output, Some e) ->
  let x := process env h cmd in
  output = ""
  /\ ((exitCode x <> 0 /\ exists outputBuff, e = exitError cmd (exitCode x) outputBuff)
      \/ In (Some e) [stdoutPipeErr x; stderrPipeErr x;
                      readErr (stdoutPipe x); readErr (stderrPipe x)]).
Proof.
  intros H x. rewrite DockerFacts.runCommand_cases in H. cbn [snd] in H. fold x in H.
  destruct (outputCapture _ _ _ _ _) as [buf|e'|] eqn:Hc; try discriminate.
  - destruct (Z.eqb_spec (exitCode x) 0) as [|Hne]; [discriminate|].
    inversion H. split; [reflexivity|]. left. split; [exact Hne|]. now exists buf.
  - inversion H; subst. split; [reflexivity|]. right.
    apply outputCapture_failed in Hc. unfold pipeCommand in Hc.
    destruct (stdoutPipeErr x) as [e1|] eqn:E1.
    + subst e1. now left.
    + destruct (stderrPipeErr x) as [e2|] eqn:E2.
      * subst e2. right. now left.
      * cbn [readPipe failure] in Hc.
        destruct Hc as [Hc|Hc]; rewrite Hc; simpl; auto.
Qed.

Lemma runCommand_error_without_output_witness :
  let x := Sample.proc (Sample.line "no such volume") "" [RecvLine Stdout; RecvLine Stderr] 1 in
  "" = ""
  /\ ((exitCode x <> 0
       /\ exists outputBuff,
            "docker ps [1] " ++ Sample.line "no such volume"
            = exitError Sample.dockerPs (exitCode x) outputBuff)
      \/ In (Some ("docker ps [1] " ++ Sample.line "no such volume"))
            [stdoutPipeErr x; stderrPipeErr x;
             readErr (stdoutPipe x); readErr (stderrPipe x)]).
Proof.
  intros x.
  apply (runCommand_error_without_output (Sample.always x) Sample.quiet
           Sample.dockerPs [] ""
           ("docker ps [1] " ++ Sample.line "no such volume")).
  reflexivity.
Defined.

(** X19. When a pipe of the command cannot be opened, [runCommand] never
    returns output: it returns the error of the pipe, as soon as the [select]
    takes it from [errChan], and otherwise does not return. *)
Theorem runCommand_pipe_failure env ctx cmd h e :
  let x := process env h cmd in
  stdoutPipeErr x = Some e
  \/ (stdoutPipeErr x = None /\ stderrPipeErr x = Some e) ->
  (snd (runCommand env ctx cmd h) = Ret ("", Some e)
   \/ snd (runCommand env ctx cmd h) = Blocked)
  /\ (forall from sched,
        picks x = RecvErr from :: sched ->
        runCommand env ctx cmd h = ((h ++ [OpRun cmd])%list, Ret ("", Some e))).
Proof.
  intros x H. rewrite DockerFacts.runCommand_cases. fold x. cbn [snd].
  assert (Hp : pipeCommand x = PipeFailed e).
  { unfold pipeCommand. destruct H as [->|[-> ->]]; reflexivity. }
  rewrite Hp. split.
  - destruct (picks x) as [|[s|s] sched]; cbn [outputCapture select]; auto.
  - intros from sched ->. reflexivity.
Qed.

Lemma runCommand_pipe_failure_witness :
  let x :=
    {| stdoutPipeErr := Some "too many open files"; stderrPipeErr := None;
       stdoutPipe := {| written := ""; readErr := None |};
       stderrPipe := {| written := ""; readErr := None |};
       picks := [RecvErr Stdout]; exitCode := 0 |} in
  runCommand (Sample.always x) Sample.quiet Sample.dockerPs []
  = ([OpRun Sample.dockerPs], Ret ("", Some "too many open files")).
Proof.
  intros x.
  apply (proj2 (runCommand_pipe_failure (Sample.always x) Sample.quiet
                  Sample.dockerPs [] "too many open files"
                  (or_introl eq_refl)) Stdout []).
  reflexivity.
Defined.

(** *** The retrying invoker, whatever the command does *)

Section RetryBounds.

Variable env : Env.
Variable ctx : Context.
Variable workingDir : string.
Variable retries : Z.
Variable command : list string.

Let cmd : Cmd := withDir (exec_Command "docker" command) workingDir.

Lemma retryLoop_stops attempt h :
  (forall e, snd (RunDockerCommand env ctx workingDir command h) <> Ret (Some e)) ->
  retryLoop env ctx workingDir retries command attempt h
  = RunDockerCommand env ctx workingDir command h.
Proof.
  intros H. rewrite retryLoop_equation_1.
  destruct (RunDockerCommand env ctx workingDir command h) as [h' [[e|]| |]];
    simpl; try reflexivity.
  now elim (H e).
Qed.

Lemma retryLoop_bounds (r : nat) : forall attempt h,
  Z.to_nat (retries - attempt) = r ->
  exists n,
    (1 <= n <= r + 1)%nat
    /\ retryLoop env ctx workingDir retries command attempt h
       = (Sample.runs h cmd n,
          snd (RunDockerCommand env ctx workingDir command
                 (Sample.runs h cmd (n - 1))))
    /\ (forall i, (i < n - 1)%nat ->
          exists e,
            snd (RunDockerCommand env ctx workingDir command (Sample.runs h cmd i))
            = Ret (Some e))
    /\ (forall e,
          snd (RunDockerCommand env ctx workingDir command
                 (Sample.runs h cmd (n - 1))) = Ret (Some e) ->
          n = (r + 1)%nat).
Proof.
  induction r as [|r IH]; intros attempt h Hr.
  - exists 1%nat. cbn [Nat.sub]. rewrite DockerFacts.runs_0.
    rewrite DockerFacts.retryLoop_last by lia.
    repeat split; try lia.
    rewrite DockerFacts.runs_S, DockerFacts.runs_0.
    exact (DockerFacts.RunDockerCommand_eq env ctx workingDir command h _ eq_refl).
  - destruct (snd (RunDockerCommand env ctx workingDir command h)) as [[e|]| |] eqn:E.
    + rewrite (DockerFacts.retryLoop_failure _ _ _ _ _ _ _ _ E).
      destruct (Z_lt_dec attempt retries) as [_|n]; [|lia].
      destruct (IH (attempt + 1) (h ++ [OpRun cmd])%list ltac:(lia))
        as (n & Hn & Hloop & Hbefore & Hlast).
      exists (S n). rewrite !DockerFacts.runs_S.
      replace (S n - 1)%nat with (S (n - 1)) by lia.
      rewrite DockerFacts.runs_S.
      split; [lia|]. split; [exact Hloop|]. split.
      * intros [|i] Hi.
        -- exists e. now rewrite DockerFacts.runs_0.
        -- rewrite DockerFacts.runs_S. apply Hbefore. lia.
      * intros e' He'. rewrite (Hlast _ He'). lia.
    + exists 1%nat. cbn [Nat.sub]. rewrite DockerFacts.runs_0.
      rewrite retryLoop_stops by (intros e; congruence).
      repeat split; try lia.
      * rewrite DockerFacts.runs_S, DockerFacts.runs_0.
        exact (DockerFacts.RunDockerCommand_eq env ctx workingDir command h _ eq_refl).
      * intros e He. congruence.
    + exists 1%nat. cbn [Nat.sub]. rewrite DockerFacts.runs_0.
      rewrite retryLoop_stops by (intros e; congruence).
      repeat split; try lia.
      * rewrite DockerFacts.runs_S, DockerFacts.runs_0.
        exact (DockerFacts.RunDockerCommand_eq env ctx workingDir command h _ eq_refl).
      * intros e He. congruence.
    + exists 1%nat. cbn [Nat.sub]. rewrite DockerFacts.runs_0.
      rewrite retryLoop_stops by (intros e; congruence).
      repeat split; try lia.
      * rewrite DockerFacts.runs_S, DockerFacts.runs_0.
        exact (DockerFacts.RunDockerCommand_eq env ctx workingDir command h _ eq_refl).
      * intros e He. congruence.
Qed.

End RetryBounds.

(** X6. Whatever the command does, [RunDockerCommandRetry] runs it [n] times
    with [1 <= n <= max(retries, 0) + 1], nothing else; every run before the
    last one returned an error; the result is the result of the last run;
    and an error is returned only when all [max(retries, 0) + 1] runs have
    been made. *)
Theorem RunDockerCommandRetry_bounds env ctx workingDir retries command h :
  let cmd := withDir (exec_Command "docker" command) workingDir in
  exists n,
    (1 <= n <= Z.to_nat retries + 1)%nat
    /\ RunDockerCommandRetry env ctx workingDir retries command h
       = (Sample.runs h cmd n,
          snd (RunDockerCommand env ctx workingDir command
                 (Sample.runs h cmd (n - 1))))
    /\ (forall i, (i < n - 1)%nat ->
          exists e,
            snd (RunDockerCommand env ctx workingDir command (Sample.runs h cmd i))
            = Ret (Some e))
    /\ (forall e,
          snd (RunDockerCommandRetry env ctx workingDir retries command h)
          = Ret (Some e) ->
          n = (Z.to_nat retries + 1)%nat).
Proof.
  intros cmd. unfold RunDockerCommandRetry.
  destruct (retryLoop_bounds env ctx workingDir retries command
              (Z.to_nat retries) 0 h ltac:(f_equal; lia))
    as (n & Hn & Hloop & Hbefore & Hlast).
  exists n. split; [exact Hn|]. split; [exact Hloop|]. split; [exact Hbefore|].
  intros e He. fold cmd in Hloop. rewrite Hloop in He. cbn [snd] in He.
  now apply Hlast with (e := e).
Qed.

(** X7. With the integrated variant, the compose dispatcher is
    [RunDockerCommand] on [compose] followed by the arguments. *)
Theorem RunDockerComposeCommand_integrated env ctx workingDir command h :
  Value ctx CtxComposeVersionKey = AnyDockerComposeVersion ComposeV2 ->
  RunDockerComposeCommand env ctx workingDir command h
  = RunDockerCommand env ctx workingDir ("compose" :: command) h.
Proof.
  intros H. unfold RunDockerComposeCommand, RunDockerCommand. now rewrite H.
Qed.

Lemma RunDockerComposeCommand_integrated_witness :
  RunDockerComposeCommand Sample.calm (Sample.withCompose ComposeV2) "/stacks/dev"
    ["up"; "-d"] []
  = RunDockerCommand Sample.calm (Sample.withCompose ComposeV2) "/stacks/dev"
      ["compose"; "up"; "-d"] [].
Proof.
  apply (RunDockerComposeCommand_integrated Sample.calm
           (Sample.withCompose ComposeV2) "/stacks/dev" ["up"; "-d"] []).
  reflexivity.
Defined.

End RunnerFacts.

(** ** Image labels *)

Module ImageFacts.
Import docker.

Section Images.

Variable crane_Config : string -> string * option error.
Variable json_Unmarshal : string -> JSONMap * option error.

Lemma GetImageConfig_ok image b config :
  crane_Config image = (b, None) ->
  json_Unmarshal b = (config, None) ->
  GetImageConfig crane_Config json_Unmarshal image = (config, None).
Proof. intros H1 H2. unfold GetImageConfig. now rewrite H1, H2. Qed.

End Images.

(** X8. Looking a label up: when the configuration of the image has a
    [config] object whose [Labels] object holds a string under the label, that
    string is returned; when [config], [Labels] or the label itself is not
    there, the empty string is returned, without an error: a missing label
    cannot be told from an empty one. *)
Theorem GetImageLabel_lookup crane_Config json_Unmarshal image label b config :
  crane_Config image = (b, None) ->
  json_Unmarshal b = (config, None) ->
  let result := GetImageLabel crane_Config json_Unmarshal image label in
  (config "config" = None -> result = Ret ("", None))
  /\ (forall c,
        config "config" = Some (DecodedMap c) ->
        (c "Labels" = None -> result = Ret ("", None))
        /\ (forall l,
              c "Labels" = Some (DecodedMap l) ->
              (l label = None -> result = Ret ("", None))
              /\ (forall s,
                    l label = Some (DecodedString s) -> result = Ret (s, None)))).
Proof.
  intros H1 H2 result. subst result. unfold GetImageLabel.
  rewrite (GetImageConfig_ok _ _ _ _ _ H1 H2).
  split; [intros ->; reflexivity|].
  intros c ->. cbn [assertMap]. split; [intros ->; reflexivity|].
  intros l ->. cbn [assertMap]. split; [intros ->; reflexivity|].
  intros s ->. reflexivity.
Qed.

Lemma GetImageLabel_lookup_witness :
  GetImageLabel Sample.registry Sample.decoder "signer" "version"
  = Ret ("v0.9.1", None)
  /\ GetImageLabel Sample.registry Sample.decoder "signer" "maintainer"
     = Ret ("", None).
Proof.
  destruct (GetImageLabel_lookup Sample.registry Sample.decoder "signer" "version"
              "<labelled>" Sample.labelled eq_refl eq_refl) as [_ H1].
  destruct (GetImageLabel_lookup Sample.registry Sample.decoder "signer" "maintainer"
              "<labelled>" Sample.labelled eq_refl eq_refl) as [_ H2].
  split.
  - apply (proj2 (proj2 (H1 _ eq_refl) _ eq_refl) "v0.9.1"). reflexivity.
  - apply (proj1 (proj2 (H2 _ eq_refl) _ eq_refl)). reflexivity.
Defined.

(** X9. Where the lookup panics: when [config] is present but is not an
    object, when [Labels] is present but is not an object, in particular
    when it is [null], and when the label is present but is not a string,
    [GetImageLabel] panics on the type assertion instead of returning an
    error. *)
Theorem GetImageLabel_panics crane_Config json_Unmarshal image label b config :
  crane_Config image = (b, None) ->
  json_Unmarshal b = (config, None) ->
  let result := GetImageLabel crane_Config json_Unmarshal image label in
  (forall v,
     config "config" = Some v -> (forall m, v <> DecodedMap m) ->
     exists msg, result = Panic msg)
  /\ (forall c,
        config "config" = Some (DecodedMap c) ->
        (c "Labels" = Some DecodedNil ->
         result
         = Panic "interface conversion: interface {} is nil, not map[string]interface {}")
        /\ (forall v,
              c "Labels" = Some v -> (forall m, v <> DecodedMap m) ->
              exists msg, result = Panic msg)
        /\ (forall l v,
              c "Labels" = Some (DecodedMap l) ->
              l label = Some v -> (forall s, v <> DecodedString s) ->
              exists msg, result = Panic msg)).
Proof.
  intros H1 H2 result. subst result. unfold GetImageLabel.
  rewrite (GetImageConfig_ok _ _ _ _ _ H1 H2).
  split.
  - intros v -> Hv. destruct v as [|s|m|t]; try (eexists; reflexivity).
    now elim (Hv m).
  - intros c ->. cbn [assertMap]. split; [|split].
    + intros ->. reflexivity.
    + intros v -> Hv. destruct v as [|s|m|t]; try (eexists; reflexivity).
      now elim (Hv m).
    + intros l v -> Hl Hv. cbn [assertMap]. rewrite Hl.
      destruct v as [|s|m|t]; try (eexists; reflexivity).
      now elim (Hv s).
Qed.

Lemma GetImageLabel_panics_witness :
  GetImageLabel Sample.registry Sample.decoder "bare" "version"
  = Panic "interface conversion: interface {} is nil, not map[string]interface {}".
Proof.
  destruct (GetImageLabel_panics Sample.registry Sample.decoder "bare" "version"
              "<unlabelled>" Sample.unlabelled eq_refl eq_refl) as [_ H].
  apply (proj1 (H _ eq_refl)). reflexivity.
Defined.

(** X10. An error of the registry, or of the decoding of what the registry
    returned, is the error [GetImageLabel] returns, with the empty label; when
    the registry fails, nothing is decoded. *)
Theorem GetImageLabel_errors crane_Config json_Unmarshal image label :
  (forall b e,
     crane_Config image = (b, Some e) ->
     forall other_Unmarshal,
       GetImageLabel crane_Config other_Unmarshal image label = Ret ("", Some e))
  /\ (forall b config e,
        crane_Config image = (b, None) ->
        json_Unmarshal b = (config, Some e) ->
        GetImageLabel crane_Config json_Unmarshal image label = Ret ("", Some e)).
Proof.
  split.
  - intros b e H other. unfold GetImageLabel, GetImageConfig. now rewrite H.
  - intros b config e H1 H2. unfold GetImageLabel, GetImageConfig.
    now rewrite H1, H2.
Qed.

Lemma GetImageLabel_errors_witness :
  GetImageLabel Sample.registry Sample.decoder "ghost" "version"
  = Ret ("", Some "GET ghost: MANIFEST_UNKNOWN")
  /\ GetImageLabel (fun _ => ("{", None)) Sample.decoder "signer" "version"
     = Ret ("", Some "unexpected end of JSON input").
Proof.
  split.
  - apply (proj1 (GetImageLabel_errors Sample.registry Sample.decoder "ghost" "version")
             "" "GET ghost: MANIFEST_UNKNOWN" eq_refl Sample.decoder).
  - apply (proj2 (GetImageLabel_errors (fun _ => ("{", None)) Sample.decoder
                    "signer" "version")
             "{" nilMap "unexpected end of JSON input" eq_refl eq_refl).
Defined.

End ImageFacts.

(** ** More on the provisioning sequence *)

Module ProvisioningFacts.
Import types ethsigner Steps.

(** X11. [CreateAccount] writes the key file, then the key descriptor, then
    imports the account, all for the generated address and under the runtime
    directory; the first of the three that fails ends it with that error and
    no account; when all three succeed it returns the generated address and
    private key. *)
Theorem CreateAccount_steps env address privateKey p args h :
  let dir := RuntimeDir (Stack_ p) in
  let key := OpWriteAccountToDisk dir address privateKey in
  let toml := OpWriteTomlKeyFile dir address in
  let import := OpImportAccountToEthsigner address in
  let result := CreateAccount env (address, privateKey) p args h in
  (forall e,
     hostResult env h key = Some e ->
     result = ((h ++ [key])%list, Ret (None, Some e)))
  /\ (hostResult env h key = None ->
      (forall e,
         hostResult env (h ++ [key])%list toml = Some e ->
         result = ((h ++ [key; toml])%list, Ret (None, Some e)))
      /\ (hostResult env (h ++ [key])%list toml = None ->
          (forall e,
             hostResult env (h ++ [key; toml])%list import = Some e ->
             result = ((h ++ [key; toml; import])%list, Ret (None, Some e)))
          /\ (hostResult env (h ++ [key; toml])%list import = None ->
              result
              = ((h ++ [key; toml; import])%list,
                 Ret (Some [("address", address); ("privateKey", privateKey)],
                      None))))).
Proof.
  intros dir key toml import result.
  assert (E : result
              = match hostResult env h key with
                | Some e => ((h ++ [key])%list, Ret (None, Some e))
                | None =>
                    match hostResult env (h ++ [key])%list toml with
                    | Some e => ((h ++ [key; toml])%list, Ret (None, Some e))
                    | None =>
                        match hostResult env (h ++ [key; toml])%list import with
                        | Some e =>
                            ((h ++ [key; toml; import])%list, Ret (None, Some e))
                        | None =>
                            ((h ++ [key; toml; import])%list,
                             Ret (Some [("address", address);
                                        ("privateKey", privateKey)], None))
                        end
                    end
                end).
  { subst result. unfold CreateAccount. cbv beta iota. fold dir.
    unfold bind at 1. unfold writeAccountToDisk at 1, perform at 1. fold key.
    destruct (hostResult env h key); [reflexivity|].
    unfold bind at 1. unfold writeTomlKeyFile at 1, perform at 1. fold toml.
    replace ((h ++ [key]) ++ [toml])%list with (h ++ [key; toml])%list
      by now rewrite <- app_assoc.
    destruct (hostResult env (h ++ [key])%list toml); [reflexivity|].
    unfold bind at 1. unfold importAccountToEthsigner at 1, perform at 1.
    fold import.
    replace ((h ++ [key; toml]) ++ [import])%list
      with (h ++ [key; toml; import])%list by now rewrite <- app_assoc.
    destruct (hostResult env (h ++ [key; toml])%list import); reflexivity. }
  rewrite E.
  split; [intros e ->; reflexivity|]. intros ->.
  split; [intros e ->; reflexivity|]. intros ->.
  split; [intros e ->; reflexivity|]. intros ->. reflexivity.
Qed.

Lemma CreateAccount_steps_witness :
  let p := Sample.provider [] in
  CreateAccount Sample.calm ("0xd4", "key-0xd4") p [] []
  = ([OpWriteAccountToDisk "/stacks/dev/runtime" "0xd4" "key-0xd4";
      OpWriteTomlKeyFile "/stacks/dev/runtime" "0xd4";
      OpImportAccountToEthsigner "0xd4"],
     Ret (Some [("address", "0xd4"); ("privateKey", "key-0xd4")], None))
  /\ CreateAccount (Sample.failing (Sample.isImportOf "0xd4") Sample.never)
       ("0xd4", "key-0xd4") p [] []
     = ([OpWriteAccountToDisk "/stacks/dev/runtime" "0xd4" "key-0xd4";
         OpWriteTomlKeyFile "/stacks/dev/runtime" "0xd4";
         OpImportAccountToEthsigner "0xd4"],
        Ret (None, Some "operation failed")).
Proof.
  intros p. split.
  - apply (proj2 (proj2 (proj2 (CreateAccount_steps Sample.calm "0xd4" "key-0xd4" p [] [])
                           eq_refl) eq_refl) eq_refl).
  - apply (proj1 (proj2 (proj2 (CreateAccount_steps
                                  (Sample.failing (Sample.isImportOf "0xd4") Sample.never)
                                  "0xd4" "key-0xd4" p [] [])
                           eq_refl) eq_refl) "operation failed" eq_refl).
Defined.

(** *** WriteConfig *)

Section WriteConfigLoop.

Variable env : Env.
Variable p : EthSignerProvider.

Lemma WriteConfig_members_all accounts : forall h,
  (forall h' o,
     In o (flat_map (memberWrites (InitDir (Stack_ p))) accounts) ->
     hostResult env h' o = None) ->
  WriteConfig_members env p (ethereumMembers accounts) h
  = ((h ++ flat_map (memberWrites (InitDir (Stack_ p))) accounts)%list, Ret None).
Proof.
  induction accounts as [|a accounts IH]; intros h Hok.
  - simpl. unfold ret. now rewrite app_nil_r.
  - cbn [ethereumMembers map]. fold (ethereumMembers accounts).
    rewrite (EthsignerFacts.WriteConfig_members_first_error env p
               {| Account := EthereumAccount a |} _ h a eq_refl).
    cbn [flat_map memberWrites app] in *.
    rewrite (Hok h _ (or_introl eq_refl)).
    rewrite (Hok _ _ (or_intror (or_introl eq_refl))).
    rewrite IH.
    + now rewrite <- app_assoc.
    + intros h' o Ho. apply Hok. right. right. exact Ho.
Qed.

End WriteConfigLoop.

(** X12. When none of its operations fails, [WriteConfig] on a stack of
    Ethereum accounts creates the directory, writes the password, writes the
    signer configuration, and then, member after member in the order of the
    stack, writes the key file and the key descriptor of each; it returns
    [nil]. *)
Theorem WriteConfig_writes_everything
    std env StacksDir p options rpcURL accounts h :
  Members (Stack_ p) = ethereumMembers accounts ->
  (forall h' o,
     In o (WriteConfig_script std StacksDir p options rpcURL accounts) ->
     hostResult env h' o = None) ->
  WriteConfig std env StacksDir p options rpcURL h
  = ((h ++ WriteConfig_script std StacksDir p options rpcURL accounts)%list,
     Ret None).
Proof.
  intros HM Hok. unfold WriteConfig, WriteConfig_script in *.
  unfold bind at 1. unfold perform at 1. rewrite (Hok h _ (or_introl eq_refl)).
  unfold bind at 1. unfold perform at 1.
  rewrite (Hok _ _ (or_intror (or_introl eq_refl))).
  unfold bind at 1. unfold perform at 1.
  rewrite (Hok _ _ (or_intror (or_intror (or_introl eq_refl)))).
  rewrite HM, WriteConfig_members_all.
  - now rewrite <- !app_assoc.
  - intros h' o Ho. apply Hok. right. right. right. exact Ho.
Qed.

Lemma WriteConfig_writes_everything_witness :
  let p := Sample.provider [Sample.account "0xa1"; Sample.account "0xb2"] in
  WriteConfig Sample.std Sample.calm "/stacks" p {| InitOptions_ChainID := 2021 |}
    "http://geth:8545" []
  = ([OpMkdirAll "/stacks/dev/init/blockchain" 493;
      OpWriteFile "/stacks/dev/init/blockchain/password"
        "correcthorsebatterystaple" 493;
      OpWriteSignerConfig 2021 "http://geth:8545"
        "/stacks/dev/init/config/ethsigner.yaml";
      OpWriteAccountToDisk "/stacks/dev/init" "0xa1" "key-0xa1";
      OpWriteTomlKeyFile "/stacks/dev/init" "0xa1";
      OpWriteAccountToDisk "/stacks/dev/init" "0xb2" "key-0xb2";
      OpWriteTomlKeyFile "/stacks/dev/init" "0xb2"],
     Ret None).
Proof.
  intros p.
  apply (WriteConfig_writes_everything Sample.std Sample.calm "/stacks" p
           {| InitOptions_ChainID := 2021 |} "http://geth:8545"
           [Sample.acct "0xa1"; Sample.acct "0xb2"] []).
  - reflexivity.
  - intros h' o _. reflexivity.
Defined.

(** X13. The sub-steps of [WriteConfig] other than the write of the signer
    configuration return their error and end the operation: the directory
    creation, the password write, and, once the members before it have been
    written, the key file and the key descriptor of a member. *)
Theorem WriteConfig_returns_error_of_other_steps
    std env StacksDir p options rpcURL h :
  let initDir := filepath_Join std [StacksDir; Name (Stack_ p); "init"] in
  let mkdir := OpMkdirAll (filepath_Join std [initDir; "blockchain"]) perm0755 in
  let password :=
    OpWriteFile (filepath_Join std [initDir; "blockchain"; "password"])
      "correcthorsebatterystaple" perm0755 in
  let signerConfig :=
    OpWriteSignerConfig (InitOptions_ChainID options) rpcURL
      (filepath_Join std [initDir; "config"; "ethsigner.yaml"]) in
  let result := WriteConfig std env StacksDir p options rpcURL h in
  (forall e,
     hostResult env h mkdir = Some e ->
     result = ((h ++ [mkdir])%list, Ret (Some e)))
  /\ (forall e,
        hostResult env h mkdir = None ->
        hostResult env (h ++ [mkdir])%list password = Some e ->
        result = ((h ++ [mkdir; password])%list, Ret (Some e)))
  /\ (forall pre a post h4,
        Members (Stack_ p) = ethereumMembers (pre ++ a :: post) ->
        hostResult env h mkdir = None ->
        hostResult env (h ++ [mkdir])%list password = None ->
        hostResult env (h ++ [mkdir; password])%list signerConfig = None ->
        WriteConfig_members env p (ethereumMembers pre)
          (h ++ [mkdir; password; signerConfig])%list
        = (h4, Ret None) ->
        let key :=
          OpWriteAccountToDisk (InitDir (Stack_ p)) (ethereum.Address a)
            (ethereum.PrivateKey a) in
        let toml := OpWriteTomlKeyFile (InitDir (Stack_ p)) (ethereum.Address a) in
        (forall e,
           hostResult env h4 key = Some e ->
           result = ((h4 ++ [key])%list, Ret (Some e)))
        /\ (forall e,
              hostResult env h4 key = None ->
              hostResult env (h4 ++ [key])%list toml = Some e ->
              result = ((h4 ++ [key; toml])%list, Ret (Some e)))).
Proof.
  intros initDir mkdir password signerConfig result.
  split; [|split].
  - intros e H1. subst result. unfold WriteConfig.
    fold initDir. fold mkdir.
    unfold bind at 1. unfold perform at 1. now rewrite H1.
  - intros e H1 H2. subst result. unfold WriteConfig.
    fold initDir. fold mkdir. fold password.
    unfold bind at 1. unfold perform at 1. rewrite H1.
    unfold bind at 1. unfold perform at 1. rewrite H2. unfold ret.
    now rewrite <- app_assoc.
  - intros pre a post h4 HM H1 H2 H3 H4 key toml.
    assert (E : result
                = match hostResult env h4 key with
                  | Some e => ((h4 ++ [key])%list, Ret (Some e))
                  | None =>
                      match hostResult env (h4 ++ [key])%list toml with
                      | Some e => ((h4 ++ [key; toml])%list, Ret (Some e))
                      | None =>
                          WriteConfig_members env p (ethereumMembers post)
                            (h4 ++ [key; toml])%list
                      end
                  end).
    { subst result. unfold WriteConfig.
      fold initDir. fold mkdir. fold password. fold signerConfig.
      unfold bind at 1. unfold perform at 1. rewrite H1.
      unfold bind at 1. unfold perform at 1. rewrite H2.
      unfold bind at 1. unfold perform at 1.
      replace ((h ++ [mkdir]) ++ [password])%list with (h ++ [mkdir; password])%list
        by now rewrite <- app_assoc.
      rewrite H3.
      replace ((h ++ [mkdir; password]) ++ [signerConfig])%list
        with (h ++ [mkdir; password; signerConfig])%list
        by now rewrite <- app_assoc.
      rewrite HM. unfold ethereumMembers. rewrite map_app.
      fold (ethereumMembers pre).
      rewrite (EthsignerFacts.WriteConfig_members_app env p _ _ _ _ H4).
      cbn [map].
      rewrite (EthsignerFacts.WriteConfig_members_first_error env p
                 {| Account := EthereumAccount a |} _ h4 a eq_refl).
      reflexivity. }
    rewrite E. split.
    + intros e ->. reflexivity.
    + intros e -> ->. reflexivity.
Qed.

Lemma WriteConfig_returns_error_of_other_steps_witness :
  let p := Sample.provider [Sample.account "0xa1"; Sample.account "0xb2"] in
  let stubborn :=
    Sample.failing
      (fun o => match o with
                | OpWriteTomlKeyFile _ address => address =? "0xb2"
                | _ => false
                end)
      Sample.never in
  WriteConfig Sample.std (Sample.failing Sample.isMkdirAll Sample.never) "/stacks" p
    {| InitOptions_ChainID := 2021 |} "http://geth:8545" []
  = ([OpMkdirAll "/stacks/dev/init/blockchain" 493], Ret (Some "operation failed"))
  /\ WriteConfig Sample.std stubborn "/stacks" p {| InitOptions_ChainID := 2021 |}
       "http://geth:8545" []
     = ([OpMkdirAll "/stacks/dev/init/blockchain" 493;
         OpWriteFile "/stacks/dev/init/blockchain/password"
           "correcthorsebatterystaple" 493;
         OpWriteSignerConfig 2021 "http://geth:8545"
           "/stacks/dev/init/config/ethsigner.yaml";
         OpWriteAccountToDisk "/stacks/dev/init" "0xa1" "key-0xa1";
         OpWriteTomlKeyFile "/stacks/dev/init" "0xa1";
         OpWriteAccountToDisk "/stacks/dev/init" "0xb2" "key-0xb2";
         OpWriteTomlKeyFile "/stacks/dev/init" "0xb2"],
        Ret (Some "operation failed")).
Proof.
  intros p stubborn. split.
  - apply (proj1 (WriteConfig_returns_error_of_other_steps Sample.std
                    (Sample.failing Sample.isMkdirAll Sample.never) "/stacks" p
                    {| InitOptions_ChainID := 2021 |} "http://geth:8545" [])).
    reflexivity.
  - apply (proj2 (proj2 (proj2 (WriteConfig_returns_error_of_other_steps Sample.std
                    stubborn "/stacks" p
                    {| InitOptions_ChainID := 2021 |} "http://geth:8545" []))
             [Sample.acct "0xa1"] (Sample.acct "0xb2") [] _
             eq_refl eq_refl eq_refl eq_refl eq_refl)
             "operation failed" eq_refl eq_refl).
Defined.

(** *** FirstTimeSetup *)

Section FirstTimeSetupTrace.

Variable std : GoStd.
Variable env : Env.
Variable p : EthSignerProvider.

Lemma FirstTimeSetup_members_cons a rest h :
  let import := OpImportAccountToEthsigner (ethereum.Address a) in
  FirstTimeSetup_members env p ({| Account := EthereumAccount a |} :: rest) h
  = match hostResult env h import with
    | Some e => ((h ++ [import])%list, Ret (Some e))
    | None => FirstTimeSetup_members env p rest (h ++ [import])%list
    end.
Proof.
  intros import. cbn [FirstTimeSetup_members Account].
  unfold bind at 1. unfold lift at 1. cbn [assertAccount].
  unfold bind at 1. unfold importAccountToEthsigner at 1, perform at 1.
  fold import. now destruct (hostResult env h import).
Qed.

Lemma FirstTimeSetup_members_trace accounts : forall h,
  exists j o,
    FirstTimeSetup_members env p (ethereumMembers accounts) h
    = ((h ++ firstn j (imports accounts))%list, o)
    /\ (j <= length accounts)%nat
    /\ (o = Ret None -> j = length accounts).
Proof.
  induction accounts as [|a accounts IH]; intros h.
  - exists 0%nat, (Ret None). simpl. unfold ret. rewrite app_nil_r. auto.
  - cbn [ethereumMembers map]. fold (ethereumMembers accounts).
    rewrite FirstTimeSetup_members_cons. cbv zeta.
    destruct (hostResult env h (OpImportAccountToEthsigner (ethereum.Address a))) as [e|].
    + exists 1%nat, (Ret (Some e)). cbn [length imports map firstn].
      split; [reflexivity|]. split; [lia|]. intros H; discriminate H.
    + destruct (IH (h ++ [OpImportAccountToEthsigner (ethereum.Address a)])%list)
        as (j & o & Ht & Hj & Hn).
      exists (S j), o. cbn [length imports map firstn]. fold (imports accounts).
      split; [|split].
      * rewrite Ht. now rewrite <- app_assoc.
      * lia.
      * intros H. now rewrite (Hn H).
Qed.

Let create : Op :=
  OpRun (withDir
           (exec_Command "docker"
              ["volume"; "create"; Name (Stack_ p) ++ "_ethsigner"]) ".").
Let mkdir : Op :=
  OpMkdirAll (filepath_Join std [RuntimeDir (Stack_ p); "contracts"]) perm0755.
Let configCopy : Op :=
  OpRun (copyFileCmd std (Name (Stack_ p) ++ "_ethsigner_config")
           (filepath_Join std
              [StackDir (Stack_ p); "runtime"; "config"; "ethsigner.yaml"])
           "firefly.ffsigner").

Lemma FirstTimeSetup_prologue_trace h :
  exists k o,
    FirstTimeSetup_prologue std env p h
    = ((h ++ firstn k [create; mkdir; configCopy])%list, o)
    /\ (1 <= k <= 3)%nat
    /\ (o = Ret None -> k = 3%nat).
Proof.
  unfold FirstTimeSetup_prologue. fold mkdir.
  unfold bind at 1.
  destruct (docker.CreateVolume env (callContext p)
              (Name (Stack_ p) ++ "_ethsigner") h) as [h1 o1] eqn:E1.
  assert (T1 : h1 = (h ++ [create])%list).
  { apply (f_equal fst) in E1. cbn [fst] in E1. rewrite <- E1.
    apply DockerFacts.RunDockerCommand_trace. }
  subst h1.
  destruct o1 as [[e|]| |].
  - exists 1%nat, (Ret (Some e)).
    split; [reflexivity|]. split; [lia|]. intros H; discriminate H.
  - unfold bind at 1. unfold perform at 1.
    destruct (hostResult env (h ++ [create])%list mkdir) as [e|].
    + exists 2%nat, (Ret (Some e)). cbn [firstn]. unfold ret.
      split; [now rewrite <- app_assoc|]. split; [lia|]. intros H; discriminate H.
    + unfold bind at 1.
      destruct (docker.CopyFileToVolume std env (callContext p) _ _ _ _)
        as [h3 o3] eqn:E3.
      assert (T3 : h3 = (((h ++ [create]) ++ [mkdir]) ++ [configCopy])%list).
      { apply (f_equal fst) in E3. cbn [fst] in E3. rewrite <- E3.
        apply EthsignerFacts.CopyFileToVolume_trace. }
      subst h3. cbn [firstn]. rewrite <- !app_assoc. cbn [app].
      destruct o3 as [r| |]; eexists 3%nat, _;
        (split; [reflexivity|]; split; [lia|]; reflexivity).
  - exists 1%nat, (Panic msg).
    split; [reflexivity|]. split; [lia|]. intros H; discriminate H.
  - exists 1%nat, Blocked.
    split; [reflexivity|]. split; [lia|]. intros H; discriminate H.
Qed.

Lemma FirstTimeSetup_script_split accounts :
  FirstTimeSetup_script std p accounts
  = ([create; mkdir; configCopy]
       ++ (imports accounts
             ++ [OpRun (copyFileCmd std (Name (Stack_ p) ++ "_ethsigner")
                          (path_Join std
                             [filepath_Join std
                                [RuntimeDir (Stack_ p); "blockchain"];
                              "password"])
                          "password")]))%list.
Proof. reflexivity. Qed.

Lemma FirstTimeSetup_trace accounts h :
  Members (Stack_ p) = ethereumMembers accounts ->
  exists k o,
    FirstTimeSetup std env p h
    = ((h ++ firstn k (FirstTimeSetup_script std p accounts))%list, o)
    /\ (1 <= k <= length (FirstTimeSetup_script std p accounts))%nat
    /\ (o = Ret None -> k = length (FirstTimeSetup_script std p accounts)).
Proof.
  intros HM. rewrite FirstTimeSetup_script_split.
  set (pw := OpRun _).
  rewrite EthsignerFacts.FirstTimeSetup_unfold. unfold bind at 1.
  destruct (FirstTimeSetup_prologue_trace h) as (k & o1 & -> & Hk & Hn).
  assert (Short : forall k', (k' <= 3)%nat ->
            firstn k' ([create; mkdir; configCopy] ++ (imports accounts ++ [pw]))%list
            = firstn k' [create; mkdir; configCopy]).
  { intros k' Hk'. rewrite firstn_app.
    replace (k' - length [create; mkdir; configCopy])%nat with 0%nat
      by (cbn [length]; lia).
    cbn [firstn]. now rewrite app_nil_r. }
  assert (Len : length ([create; mkdir; configCopy] ++ (imports accounts ++ [pw]))%list
                = (4 + length accounts)%nat).
  { rewrite !length_app, EthsignerFacts.imports_length. cbn [length]. lia. }
  rewrite Len.
  destruct o1 as [[e|]| |];
    try (eexists k, _; rewrite (Short k) by lia;
         split; [reflexivity | split; [lia | intros H; discriminate H]]).
  rewrite (Hn eq_refl). cbn [firstn].
  unfold bind at 1. rewrite HM.
  destruct (FirstTimeSetup_members_trace accounts (h ++ [create; mkdir; configCopy])%list)
    as (j & o4 & -> & Hj & Hnj).
  assert (Mid : firstn (3 + j) ([create; mkdir; configCopy]
                                  ++ (imports accounts ++ [pw]))%list
                = ([create; mkdir; configCopy] ++ firstn j (imports accounts))%list).
  { change (3 + j)%nat with (length [create; mkdir; configCopy] + j)%nat.
    rewrite firstn_app_2. f_equal. rewrite firstn_app.
    replace (j - length (imports accounts))%nat with 0%nat
      by (rewrite EthsignerFacts.imports_length; lia).
    cbn [firstn]. now rewrite app_nil_r. }
  destruct o4 as [[e|]| |];
    try (eexists (3 + j)%nat, _; rewrite Mid;
         split; [now rewrite <- app_assoc | split; [lia | intros H; discriminate H]]).
  rewrite (Hnj eq_refl).
  replace (firstn (length accounts) (imports accounts)) with (imports accounts)
    by (now rewrite <- (EthsignerFacts.imports_length accounts), firstn_all).
  exists (4 + length accounts)%nat,
    (snd (passwordCopy std env p
            ((h ++ [create; mkdir; configCopy]) ++ imports accounts)%list)).
  rewrite <- Len at 1. rewrite firstn_all. split; [|split; [lia | reflexivity]].
  unfold passwordCopy.
  match goal with |- ?c = _ => destruct c as [h5 o5] eqn:E5 end.
  apply (f_equal fst) in E5.
  rewrite EthsignerFacts.CopyFileToVolume_trace in E5.
  cbn [fst snd] in *. subst h5. fold pw. now rewrite <- !app_assoc.
Qed.

End FirstTimeSetupTrace.

(** X14. In every environment, what [FirstTimeSetup] issues for a stack of
    Ethereum accounts is a beginning of one fixed sequence: the creation of
    the volume, the contracts directory, the copy of the configuration, the
    imports in the order of the members, the copy of the password. It issues
    at least the first and never anything else, and it returns [nil] only
    when it has issued them all. *)
Theorem FirstTimeSetup_follows_script std env p accounts h :
  Members (Stack_ p) = ethereumMembers accounts ->
  exists k,
    (1 <= k <= length (FirstTimeSetup_script std p accounts))%nat
    /\ fst (FirstTimeSetup std env p h)
       = (h ++ firstn k (FirstTimeSetup_script std p accounts))%list
    /\ (snd (FirstTimeSetup std env p h) = Ret None ->
        k = length (FirstTimeSetup_script std p accounts)).
Proof.
  intros HM.
  destruct (FirstTimeSetup_trace std env p accounts h HM) as (k & o & E & Hk & Hn).
  exists k. rewrite E. auto.
Qed.

Lemma FirstTimeSetup_follows_script_witness :
  let accounts := [Sample.acct "0xa1"; Sample.acct "0xb2"; Sample.acct "0xc3"] in
  let p := Sample.provider (ethereumMembers accounts) in
  let stubborn := Sample.failing (Sample.isImportOf "0xb2") Sample.never in
  exists k,
    (1 <= k <= length (FirstTimeSetup_script Sample.std p accounts))%nat
    /\ fst (FirstTimeSetup Sample.std stubborn p [])
       = ([] ++ firstn k (FirstTimeSetup_script Sample.std p accounts))%list
    /\ (snd (FirstTimeSetup Sample.std stubborn p []) = Ret None ->
        k = length (FirstTimeSetup_script Sample.std p accounts)).
Proof.
  intros accounts p stubborn.
  apply (FirstTimeSetup_follows_script Sample.std stubborn p accounts []).
  reflexivity.
Defined.

(** X15. A failure of the volume creation, or of the creation of the
    contracts directory, is returned by [FirstTimeSetup], which then issues
    nothing more. *)
Theorem FirstTimeSetup_first_steps_abort std env p h :
  let create :=
    docker.CreateVolume env (callContext p) (Name (Stack_ p) ++ "_ethsigner") h in
  let mkdir :=
    OpMkdirAll (filepath_Join std [RuntimeDir (Stack_ p); "contracts"]) perm0755 in
  (forall h1 e,
     create = (h1, Ret (Some e)) ->
     FirstTimeSetup std env p h = (h1, Ret (Some e)))
  /\ (forall h1 e,
        create = (h1, Ret None) ->
        hostResult env h1 mkdir = Some e ->
        FirstTimeSetup std env p h = ((h1 ++ [mkdir])%list, Ret (Some e))).
Proof.
  intros create mkdir. subst create. split.
  - intros h1 e H. unfold FirstTimeSetup. unfold bind at 1. now rewrite H.
  - intros h1 e H1 H2. unfold FirstTimeSetup. fold mkdir.
    unfold bind at 1. rewrite H1.
    unfold bind at 1. unfold perform at 1. now rewrite H2.
Qed.

Lemma FirstTimeSetup_first_steps_abort_witness :
  let p := Sample.provider [Sample.account "0xa1"] in
  let create :=
    OpRun {| Path := "docker";
             Args := ["docker"; "volume"; "create"; "dev_ethsigner"];
             Dir := "." |} in
  FirstTimeSetup Sample.std
    (Sample.failing Sample.never (fun c => existsb (String.eqb "create") (Args c)))
    p []
  = ([create], Ret (Some "docker volume create dev_ethsigner [1] "))
  /\ FirstTimeSetup Sample.std (Sample.failing Sample.isMkdirAll Sample.never) p []
     = ([create; OpMkdirAll "/stacks/dev/runtime/contracts" 493],
        Ret (Some "operation failed")).
Proof.
  intros p create. split.
  - apply (proj1 (FirstTimeSetup_first_steps_abort Sample.std
                    (Sample.failing Sample.never
                       (fun c => existsb (String.eqb "create") (Args c))) p [])).
    reflexivity.
  - apply (proj2 (FirstTimeSetup_first_steps_abort Sample.std
                    (Sample.failing Sample.isMkdirAll Sample.never) p [])
             [create] "operation failed"); reflexivity.
Defined.

(** *** The service definition *)

Lemma GetDockerServiceDefinition_members_join accounts : forall i addresses,
  GetDockerServiceDefinition_members (i + Z.of_nat (length accounts)) i
    (ethereumMembers accounts) addresses
  = Ret (addresses ++ Str.Join (map ethereum.Address accounts) ",").
Proof.
  induction accounts as [|a accounts IH]; intros i addresses.
  - simpl. now rewrite StrFacts.app_nil_r.
  - cbn [ethereumMembers map GetDockerServiceDefinition_members Account
           assertAccount andThen].
    fold (ethereumMembers accounts).
    replace (i + Z.of_nat (length (a :: accounts)))
      with ((i + 1) + Z.of_nat (length accounts))
      by (cbn [length]; lia).
    rewrite IH.
    destruct accounts as [|b accounts].
    + cbn [length map Str.Join].
      replace (i + 1 <? i + 1 + Z.of_nat 0)%Z with false
        by (symmetry; apply Z.ltb_ge; simpl; lia).
      now rewrite !StrFacts.app_nil_r.
    + replace (i + 1 <? i + 1 + Z.of_nat (length (b :: accounts)))%Z with true
        by (symmetry; apply Z.ltb_lt; cbn [length]; lia).
      change (Str.Join (map ethereum.Address (a :: b :: accounts)) ",")
        with (ethereum.Address a ++ ","
                ++ Str.Join (map ethereum.Address (b :: accounts)) ",").
      now rewrite !StrFacts.app_assoc.
Qed.

(** X16. The loop of [GetDockerServiceDefinition] over a stack of Ethereum
    accounts builds the addresses of the members, in their order, separated
    by commas, with no comma after the last; an empty stack gives the empty
    string. *)
Theorem GetDockerServiceDefinition_addresses accounts :
  GetDockerServiceDefinition_members
    (Z.of_nat (length (ethereumMembers accounts))) 0
    (ethereumMembers accounts) ""
  = Ret (Str.Join (map ethereum.Address accounts) ",").
Proof.
  unfold ethereumMembers at 1. rewrite length_map.
  apply (GetDockerServiceDefinition_members_join accounts 0 "").
Qed.

Lemma getCommand_same_chain std useJava p p' rpcURL :
  ChainID (Stack_ p) = ChainID (Stack_ p') ->
  getCommand std useJava p rpcURL = getCommand std useJava p' rpcURL.
Proof. intros H. unfold getCommand. now rewrite H. Qed.

(** X17. The addresses built by the loop do not reach the service
    definition: two stacks of Ethereum accounts with the same name, exposed
    port and chain identifier get the same definition, whoever their members
    are. *)
Theorem GetDockerServiceDefinition_ignores_accounts
    std (LoggingConfig : Type) (StandardLogOptions : LoggingConfig)
    useJava p p' accounts accounts' rpcURL :
  Members (Stack_ p) = ethereumMembers accounts ->
  Members (Stack_ p') = ethereumMembers accounts' ->
  Name (Stack_ p) = Name (Stack_ p') ->
  ExposedBlockchainPort (Stack_ p) = ExposedBlockchainPort (Stack_ p') ->
  ChainID (Stack_ p) = ChainID (Stack_ p') ->
  GetDockerServiceDefinition std StandardLogOptions useJava p rpcURL
  = GetDockerServiceDefinition std StandardLogOptions useJava p' rpcURL.
Proof.
  intros HM HM' HN HP HC. unfold GetDockerServiceDefinition.
  rewrite HM, HM'.
  destruct (EthsignerFacts.GetDockerServiceDefinition_members_ethereum accounts
              (Z.of_nat (length (ethereumMembers accounts))) 0 "") as [s ->].
  destruct (EthsignerFacts.GetDockerServiceDefinition_members_ethereum accounts'
              (Z.of_nat (length (ethereumMembers accounts'))) 0 "") as [s' ->].
  cbn [andThen].
  now rewrite (getCommand_same_chain std useJava p p' rpcURL HC), HN, HP.
Qed.

Lemma GetDockerServiceDefinition_ignores_accounts_witness :
  GetDockerServiceDefinition Sample.std tt useJavaSigner
    (Sample.provider [Sample.account "0xa1"; Sample.account "0xb2"]) "http://geth:8545"
  = GetDockerServiceDefinition Sample.std tt useJavaSigner
      (Sample.provider []) "http://geth:8545".
Proof.
  apply (GetDockerServiceDefinition_ignores_accounts Sample.std unit tt useJavaSigner
           (Sample.provider [Sample.account "0xa1"; Sample.account "0xb2"])
           (Sample.provider [])
           [Sample.acct "0xa1"; Sample.acct "0xb2"] [] "http://geth:8545");
    reflexivity.
Defined.

(** X18. As the program is compiled ([useJavaSigner = false]), the service
    definition of a stack of Ethereum accounts has an empty command line and
    does not depend on the RPC URL: no URL, valid or not, makes
    [GetDockerServiceDefinition] panic. *)
Theorem GetDockerServiceDefinition_as_compiled
    std (LoggingConfig : Type) (StandardLogOptions : LoggingConfig) p accounts :
  Members (Stack_ p) = ethereumMembers accounts ->
  exists sd,
    (forall rpcURL,
       GetDockerServiceDefinition std StandardLogOptions useJavaSigner p rpcURL
       = Ret sd)
    /\ docker.Command (docker.Service_ sd) = "".
Proof.
  intros HM. eexists. split.
  - intros rpcURL. unfold GetDockerServiceDefinition.
    rewrite HM.
    destruct (EthsignerFacts.GetDockerServiceDefinition_members_ethereum accounts
                (Z.of_nat (length (ethereumMembers accounts))) 0 "") as [s ->].
    cbn [andThen].
    rewrite EthsignerFacts.getCommand_go_signer. cbn [andThen]. reflexivity.
  - reflexivity.
Qed.

Lemma GetDockerServiceDefinition_as_compiled_witness :
  exists sd,
    (forall rpcURL,
       GetDockerServiceDefinition Sample.std tt useJavaSigner
         (Sample.provider [Sample.account "0xa1"]) rpcURL = Ret sd)
    /\ docker.Command (docker.Service_ sd) = "".
Proof.
  apply (GetDockerServiceDefinition_as_compiled Sample.std unit tt
           (Sample.provider [Sample.account "0xa1"]) [Sample.acct "0xa1"]).
  reflexivity.
Defined.

End ProvisioningFacts.
